(** * Firestore local model: versioned documents and the query cache

    A shallow embedding of
    - [packages/firestore/src/model/document.ts]
      ([MaybeDocument], [Document], [NoDocument]), and
    - [packages/firestore/test/unit/local/test_query_cache.ts]
      ([TestQueryCache], the one-transaction-per-call wrapper around a
      [QueryCache]),
    together with the properties the specification states about them. *)

From Stdlib Require Import ZArith String List Bool Lia Sorted.
From Stdlib Require OrderedTypeEx.
From stdpp Require Import base option list gmap sets strings pretty.

Local Open Scope Z_scope.

(** ** JavaScript outcomes

    A call either returns a value or throws.  Two kinds of exception matter
    here: the fatal assertion raised by [fail] of [util/assert], and the
    [TypeError] the runtime raises when a missing member is called. *)

Inductive JsError : Type :=
| AssertionFailure (msg : string)
| TypeError (msg : string).

Inductive Result (A : Type) : Type :=
| Ok (a : A)
| Err (e : JsError).

Arguments Ok {A} a.
Arguments Err {A} e.

Definition throws {A : Type} (r : Result A) : Prop :=
  match r with Ok _ => False | Err _ => True end.

Definition fatal {A : Type} (r : Result A) : Prop :=
  match r with Err (AssertionFailure _) => True | _ => False end.

(** Modelled from the spec: [fail] of [util/assert] is imported by
    [document.ts] but its file is not part of the sources; the specification
    describes it as a fatal, non-recoverable assertion failure. *)
Definition fail {A : Type} (msg : string) : Result A :=
  Err (AssertionFailure msg).

(** ** External collaborators of [document.ts]

    [DocumentKey], [SnapshotVersion], [FieldPath], [FieldValue],
    [ObjectValue] and [AnyJs] are imported by [document.ts]; only the
    members the file calls are listed.  A JavaScript [number] returned by a
    comparator is an integer here. *)

Class Collaborators : Type := {
  DocumentKey : Type;
  DocumentKey_comparator : DocumentKey → DocumentKey → Z;
  DocumentKey_isEqual : DocumentKey → DocumentKey → bool;

  SnapshotVersion : Type;
  SnapshotVersion_MIN : SnapshotVersion;
  SnapshotVersion_compareTo : SnapshotVersion → SnapshotVersion → Z;
  SnapshotVersion_isEqual : SnapshotVersion → SnapshotVersion → bool;

  FieldPath : Type;
  AnyJs : Type;
  undefined : AnyJs;

  FieldValue : Type;
  FieldValue_compareTo : FieldValue → FieldValue → Z;
  FieldValue_value : FieldValue → AnyJs;

  ObjectValue : Type;
  ObjectValue_field : ObjectValue → FieldPath → option FieldValue;
  ObjectValue_value : ObjectValue → AnyJs;
  ObjectValue_isEqual : ObjectValue → ObjectValue → bool;
}.

(** [toString] of the imported types, which the template literals of
    [document.ts] call to print a key, a version and the document body. *)
Class Printable `{!Collaborators} : Type := {
  DocumentKey_toString : DocumentKey → string;
  SnapshotVersion_toString : SnapshotVersion → string;
  ObjectValue_toString : ObjectValue → string;
}.

(** How a template literal prints a boolean. *)
Definition boolean_toString (b : bool) : string :=
  if b then "true"%string else "false"%string.

(** ** The data model of [document.ts] *)

Section Model.
Context `{!Collaborators}.

(** The three constructor parameters of the abstract class [MaybeDocument]. *)
Record MaybeDocumentFields : Type := {
  key : DocumentKey;
  remoteVersion : SnapshotVersion;
  commitVersion : SnapshotVersion;
}.

Record DocumentOptions : Type := {
  opt_hasLocalMutations : bool;
}.

(** [class Document extends MaybeDocument] *)
Record Document : Type := {
  doc_super :> MaybeDocumentFields;
  data : ObjectValue;
  hasLocalMutations : bool;
}.

(** [class NoDocument extends MaybeDocument] *)
Record NoDocument : Type := {
  nodoc_super :> MaybeDocumentFields;
}.

(** A value of static type [MaybeDocument] is an instance of one of the two
    concrete classes. *)
Inductive MaybeDocument : Type :=
| IsDocument (d : Document)
| IsNoDocument (n : NoDocument).

Definition maybe_fields (m : MaybeDocument) : MaybeDocumentFields :=
  match m with
  | IsDocument d => doc_super d
  | IsNoDocument n => nodoc_super n
  end.

(** [new Document(key, remoteVersion, commitVersion, data, options)] *)
Definition new_Document (k : DocumentKey) (rv cv : SnapshotVersion)
    (dat : ObjectValue) (options : DocumentOptions) : Document :=
  {| doc_super := {| key := k; remoteVersion := rv; commitVersion := cv |};
     data := dat;
     hasLocalMutations := opt_hasLocalMutations options |}.

(** [new NoDocument(key, remoteVersion, commitVersion)] *)
Definition new_NoDocument (k : DocumentKey) (rv cv : SnapshotVersion)
    : NoDocument :=
  {| nodoc_super := {| key := k; remoteVersion := rv; commitVersion := cv |} |}.

(** What an [isEqual] method can be handed at run time: the declared
    parameter types are erased, so besides instances of the two classes the
    argument may be [null], [undefined], a primitive, or an object of some
    other class, which may or may not have the properties [key],
    [remoteVersion] and [commitVersion]. *)
Inductive JsRef : Type :=
| JsNull
| JsUndefined
| JsBool (b : bool)
| JsNumber (z : Z)
| JsString (s : string)
| JsDocument (d : Document)
| JsNoDocument (n : NoDocument)
| JsObject (props : option MaybeDocumentFields).

(** JavaScript truthiness, as tested by [&&] and [?:]. *)
Definition truthy (v : JsRef) : bool :=
  match v with
  | JsNull | JsUndefined => false
  | JsBool b => b
  | JsNumber z => negb (z =? 0)
  | JsString s => negb (String.eqb s EmptyString)
  | JsDocument _ | JsNoDocument _ | JsObject _ => true
  end.

(** [v instanceof Document] *)
Definition instanceof_Document (v : JsRef) : option Document :=
  match v with
  | JsDocument d => Some d
  | _ => None
  end.

(** Reading [v.key], [v.remoteVersion], [v.commitVersion] on a truthy value:
    instances of both classes carry them, another object may, and a
    primitive has no such property. *)
Definition maybe_fields_of (v : JsRef) : option MaybeDocumentFields :=
  match v with
  | JsDocument d => Some (doc_super d)
  | JsNoDocument n => Some (nodoc_super n)
  | JsObject props => props
  | _ => None
  end.

End Model.

(** ** [MaybeDocument] *)

Module MaybeDocument.
Section Methods.
Context `{!Collaborators}.

(** [static compareByKey(d1, d2)] *)
Definition compareByKey (d1 d2 : MaybeDocument) : Z :=
  DocumentKey_comparator (key (maybe_fields d1)) (key (maybe_fields d2)).

End Methods.
End MaybeDocument.

(** ** [Document] *)

Module Document.
Section Methods.
Context `{!Collaborators}.

Definition field (this : Document) (path : FieldPath) : option FieldValue :=
  ObjectValue_field (data this) path.

(** [field ? field.value() : undefined]: a [FieldValue] is an object and
    therefore truthy, so the test separates presence from [undefined]. *)
Definition fieldValue (this : Document) (path : FieldPath) : AnyJs :=
  let field := field this path in
  match field with
  | Some f => FieldValue_value f
  | None => undefined
  end.

Definition value (this : Document) : AnyJs :=
  ObjectValue_value (data this).

Definition hasPendingWrites (this : Document)
    (baseSnapshotVersion : SnapshotVersion) : bool :=
  if hasLocalMutations this then true
  else if negb (SnapshotVersion_isEqual baseSnapshotVersion SnapshotVersion_MIN)
          && (SnapshotVersion_compareTo (commitVersion this) baseSnapshotVersion >=? 0)
       then SnapshotVersion_compareTo (commitVersion this) (remoteVersion this) >? 0
       else false.

Definition isEqual (this : Document) (other : JsRef) : Result bool :=
  match instanceof_Document other with
  | Some o =>
      Ok (DocumentKey_isEqual (key this) (key o)
          && SnapshotVersion_isEqual (remoteVersion this) (remoteVersion o)
          && SnapshotVersion_isEqual (commitVersion this) (commitVersion o)
          && ObjectValue_isEqual (data this) (data o)
          && Bool.eqb (hasLocalMutations this) (hasLocalMutations o))
  | None => Ok false
  end.

(** [static compareByField(field, d1, d2)] *)
Definition compareByField (path : FieldPath) (d1 d2 : Document) : Result Z :=
  let v1 := field d1 path in
  let v2 := field d2 path in
  match v1, v2 with
  | Some f1, Some f2 => Ok (FieldValue_compareTo f1 f2)
  | _, _ => fail "Trying to compare documents on fields that don't exist"
  end.

End Methods.

Section Printing.
Context `{!Collaborators} `{!Printable}.

Definition toString (this : Document) : string :=
  ("Document(" ++ DocumentKey_toString (key this) ++ ", "
   ++ SnapshotVersion_toString (remoteVersion this) ++ ", "
   ++ ObjectValue_toString (data this) ++ ", "
   ++ "{hasLocalMutations: " ++ boolean_toString (hasLocalMutations this)
   ++ "})")%string.

End Printing.
End Document.

(** ** [NoDocument] *)

Module NoDocument.
Section Methods.
Context `{!Collaborators}.

(** [other && other.remoteVersion.isEqual(this.remoteVersion) && ...]:
    a falsy [other] is returned as it is; on a truthy value the three
    properties are read, and calling [isEqual] on a missing one throws. *)
Definition isEqual (this : NoDocument) (other : JsRef) : Result JsRef :=
  if truthy other then
    match maybe_fields_of other with
    | Some o =>
        Ok (JsBool (SnapshotVersion_isEqual (remoteVersion o) (remoteVersion this)
                    && SnapshotVersion_isEqual (commitVersion o) (commitVersion this)
                    && DocumentKey_isEqual (key o) (key this)))
    | None => Err (TypeError "Cannot read property 'isEqual' of undefined")
    end
  else Ok other.

End Methods.

Section Printing.
Context `{!Collaborators} `{!Printable}.

Definition toString (this : NoDocument) : string :=
  ("NoDocument(" ++ DocumentKey_toString (key this) ++ ", "
   ++ SnapshotVersion_toString (remoteVersion this) ++ ")")%string.

End Printing.
End NoDocument.

(** ** Member lookup on the class hierarchy

    Which instance members each class body of [document.ts] declares, and
    how a call [x.m(...)] finds [m]: in the class of [x], then in the class
    it extends.  Calling a member that is found nowhere throws a
    [TypeError]. *)

Inductive ClassName : Type := CMaybeDocument | CDocument | CNoDocument.

Definition superclass (c : ClassName) : option ClassName :=
  match c with
  | CMaybeDocument => None
  | CDocument | CNoDocument => Some CMaybeDocument
  end.

Definition declares (c : ClassName) : list string :=
  match c with
  | CMaybeDocument => []
  | CDocument =>
      ["field"; "fieldValue"; "value"; "hasPendingWrites"; "isEqual";
       "toString"]%string
  | CNoDocument => ["toString"; "isEqual"]%string
  end.

Definition declares_member (c : ClassName) (m : string) : bool :=
  existsb (String.eqb m) (declares c).

(** The class whose body provides member [m] for an instance of [c]. *)
Definition resolve (c : ClassName) (m : string) : option ClassName :=
  if declares_member c m then Some c
  else match superclass c with
       | Some s => if declares_member s m then Some s else None
       | None => None
       end.

Module Dispatch.
Section Calls.
Context `{!Collaborators}.

Definition classOf (x : MaybeDocument) : ClassName :=
  match x with
  | IsDocument _ => CDocument
  | IsNoDocument _ => CNoDocument
  end.

(** [x.field(path)] on a value of static type [MaybeDocument] *)
Definition call_field (x : MaybeDocument) (path : FieldPath)
    : Result (option FieldValue) :=
  match resolve (classOf x) "field", x with
  | Some CDocument, IsDocument d => Ok (Document.field d path)
  | _, _ => Err (TypeError "field is not a function")
  end.

(** [x.value()] on a value of static type [MaybeDocument] *)
Definition call_value (x : MaybeDocument) : Result AnyJs :=
  match resolve (classOf x) "value", x with
  | Some CDocument, IsDocument d => Ok (Document.value d)
  | _, _ => Err (TypeError "value is not a function")
  end.

End Calls.
End Dispatch.

(** ** Collaborators of [test_query_cache.ts]

    The wrapper imports [Query], [TargetId], [QueryData], [Persistence],
    [QueryCache] and [documentKeySet]; none of their files is part of the
    sources, so they are described here from the specification. *)

(** Modelled from the spec: [TargetId] of [core/types], "an ordered
    integer-like value". *)
Abbreviation TargetId := Z (only parsing).

(** Modelled from the spec: the [Query] descriptor of [core/query], opaque
    apart from its canonical identity, and the requirement that document
    keys can be collected in sets. *)
Class CacheCollaborators `{!Collaborators} : Type := {
  DocumentKey_eq_dec :: EqDecision DocumentKey;
  DocumentKey_countable :: Countable DocumentKey;
  Query : Type;
  Query_canonicalId : Query → string;
}.

Section CacheTypes.
Context `{!Collaborators} `{!CacheCollaborators}.

(** Modelled from the spec: the [QueryData] record of [local/query_data]:
    the query it serves, its target id, a listen sequence number and the
    resumable snapshot position. *)
Record QueryData : Type := {
  query : Query;
  targetId : TargetId;
  sequenceNumber : Z;
  snapshotVersion : SnapshotVersion;
  resumeToken : string;
}.

(** Modelled from the spec: [documentKeySet()] of [model/collections], the
    empty set of document keys, and the [add] of such a set. *)
Definition documentKeySet : gset DocumentKey := ∅.

Definition keySet_add (set : gset DocumentKey) (k : DocumentKey)
    : gset DocumentKey :=
  {[ k ]} ∪ set.

(** Modelled from the spec: the handle a transaction body receives from
    [Persistence.runTransaction]; it records the label and the flag the
    transaction was opened with. *)
Record PersistenceTransaction : Type := {
  txn_action : string;
  txn_flag : bool;
}.

(** A computation inside a transaction over a store [W]: it fails, or
    returns a value and the store it leaves. *)
Definition PersistencePromise (W T : Type) : Type := W → Result (T * W).

(** What a caller awaits: the outcome and the store after the transaction
    has committed or aborted. *)
Definition Promise (W T : Type) : Type := W → Result T * W.

(** The [Persistence] interface, as far as the wrapper uses it. *)
Class Persistence (W : Type) : Type := {
  runTransaction :
    ∀ {T : Type}, string → bool →
      (PersistenceTransaction → PersistencePromise W T) → Promise W T;
}.

(** The [QueryCache] interface: the twelve methods the wrapper calls. *)
Class QueryCache (W : Type) : Type := {
  cache_addQueryData :
    PersistenceTransaction → QueryData → PersistencePromise W unit;
  cache_updateQueryData :
    PersistenceTransaction → QueryData → PersistencePromise W unit;
  cache_getQueryCount :
    PersistenceTransaction → PersistencePromise W Z;
  cache_removeQueryData :
    PersistenceTransaction → QueryData → PersistencePromise W unit;
  cache_getQueryData :
    PersistenceTransaction → Query → PersistencePromise W (option QueryData);
  cache_getLastRemoteSnapshotVersion :
    PersistenceTransaction → PersistencePromise W SnapshotVersion;
  cache_allocateTargetId :
    PersistenceTransaction → PersistencePromise W TargetId;
  cache_addMatchingKeys :
    PersistenceTransaction → gset DocumentKey → TargetId →
    PersistencePromise W unit;
  cache_removeMatchingKeys :
    PersistenceTransaction → gset DocumentKey → TargetId →
    PersistencePromise W unit;
  cache_getMatchingKeysForTargetId :
    PersistenceTransaction → TargetId →
    PersistencePromise W (gset DocumentKey);
  cache_removeMatchingKeysForTargetId :
    PersistenceTransaction → TargetId → PersistencePromise W unit;
  cache_containsKey :
    PersistenceTransaction → DocumentKey → PersistencePromise W bool;
  cache_setTargetsMetadata :
    PersistenceTransaction → Z → option SnapshotVersion →
    PersistencePromise W unit;
}.

End CacheTypes.

(** ** [TestQueryCache]

    Every method opens one transaction, with the label and the flag written
    in the source, and runs a single cache call in it. *)

Module TestQueryCache.
Section Methods.
Context `{!Collaborators} `{!CacheCollaborators}.
Context {W : Type} `{!Persistence W} `{!QueryCache W}.

Definition addQueryData (queryData : QueryData) : Promise W unit :=
  runTransaction "addQueryData" false
    (λ txn, cache_addQueryData txn queryData).

Definition updateQueryData (queryData : QueryData) : Promise W unit :=
  runTransaction "updateQueryData" true
    (λ txn, cache_updateQueryData txn queryData).

Definition getQueryCount : Promise W Z :=
  runTransaction "getQueryCount" false
    (λ txn, cache_getQueryCount txn).

Definition removeQueryData (queryData : QueryData) : Promise W unit :=
  runTransaction "addQueryData" true
    (λ txn, cache_removeQueryData txn queryData).

Definition getQueryData (q : Query) : Promise W (option QueryData) :=
  runTransaction "getQueryData" false
    (λ txn, cache_getQueryData txn q).

Definition getLastRemoteSnapshotVersion : Promise W SnapshotVersion :=
  runTransaction "getLastRemoteSnapshotVersion" false
    (λ txn, cache_getLastRemoteSnapshotVersion txn).

Definition allocateTargetId : Promise W TargetId :=
  runTransaction "allocateTargetId" false
    (λ txn, cache_allocateTargetId txn).

(** [let set = documentKeySet(); for (const key of keys) set = set.add(key)] *)
Definition keySetOf (keys : list DocumentKey) : gset DocumentKey :=
  fold_left keySet_add keys documentKeySet.

Definition addMatchingKeys (keys : list DocumentKey) (t : TargetId)
    : Promise W unit :=
  runTransaction "addMatchingKeys" true
    (λ txn, cache_addMatchingKeys txn (keySetOf keys) t).

Definition removeMatchingKeys (keys : list DocumentKey) (t : TargetId)
    : Promise W unit :=
  runTransaction "removeMatchingKeys" true
    (λ txn, cache_removeMatchingKeys txn (keySetOf keys) t).

(** [.then(keySet => { keySet.forEach(key => result.push(key)); ... })] *)
Definition getMatchingKeysForTargetId (t : TargetId)
    : Promise W (list DocumentKey) :=
  λ w,
    match runTransaction "getMatchingKeysForTargetId" false
            (λ txn, cache_getMatchingKeysForTargetId txn t) w with
    | (Ok keySet, w') => (Ok (elements keySet), w')
    | (Err e, w') => (Err e, w')
    end.

Definition removeMatchingKeysForTargetId (t : TargetId) : Promise W unit :=
  runTransaction "removeMatchingKeysForTargetId" true
    (λ txn, cache_removeMatchingKeysForTargetId txn t).

Definition containsKey (k : DocumentKey) : Promise W bool :=
  runTransaction "containsKey" false
    (λ txn, cache_containsKey txn k).

Definition setTargetsMetadata (highestListenSequenceNumber : Z)
    (lastRemoteSnapshotVersion : option SnapshotVersion) : Promise W unit :=
  runTransaction "setTargetsMetadata" true
    (λ txn, cache_setTargetsMetadata txn highestListenSequenceNumber
              lastRemoteSnapshotVersion).

End Methods.
End TestQueryCache.

(** ** The query cache and the transaction context, from the specification

    Neither an implementation of [QueryCache] nor one of [Persistence] is
    part of the sources.  The store below follows the contract table of the
    specification: per-target records looked up by the canonical identity of
    their query, the target-key index, and the global metadata. *)

Module SpecCache.
Section Store.
Context `{!Collaborators} `{!CacheCollaborators}.

(** Modelled from the spec: the state the query cache owns, namely the
    stored [QueryData] records, the target-key index
    [TargetId -> set<DocumentKey>], the target-id high-water mark and the
    global target metadata. *)
Record Store : Type := {
  queries : gmap string QueryData;
  matched : gmap Z (gset DocumentKey);
  highestTargetId : TargetId;
  highestListenSequenceNumber : Z;
  lastRemoteSnapshotVersion : SnapshotVersion;
}.

Definition with_queries (st : Store) (qs : gmap string QueryData) : Store :=
  {| queries := qs; matched := matched st;
     highestTargetId := highestTargetId st;
     highestListenSequenceNumber := highestListenSequenceNumber st;
     lastRemoteSnapshotVersion := lastRemoteSnapshotVersion st |}.

Definition with_matched (st : Store) (m : gmap Z (gset DocumentKey)) : Store :=
  {| queries := queries st; matched := m;
     highestTargetId := highestTargetId st;
     highestListenSequenceNumber := highestListenSequenceNumber st;
     lastRemoteSnapshotVersion := lastRemoteSnapshotVersion st |}.

Definition with_highestTargetId (st : Store) (t : TargetId) : Store :=
  {| queries := queries st; matched := matched st;
     highestTargetId := t;
     highestListenSequenceNumber := highestListenSequenceNumber st;
     lastRemoteSnapshotVersion := lastRemoteSnapshotVersion st |}.

Definition with_metadata (st : Store) (n : Z) (v : SnapshotVersion) : Store :=
  {| queries := queries st; matched := matched st;
     highestTargetId := highestTargetId st;
     highestListenSequenceNumber := n;
     lastRemoteSnapshotVersion := v |}.

(** Modelled from the spec: the currently-tracked targets are the targets
    that have a stored [QueryData] record (the ones [getQueryCount]
    counts). *)
Definition trackedTargets (st : Store) : list TargetId :=
  (λ kv, targetId (snd kv)) <$> map_to_list (queries st).

Definition isTracked (st : Store) (t : TargetId) : bool :=
  bool_decide (t ∈ trackedTargets st).

(** A target is tracked when some stored record carries its id. *)
Definition tracked (st : Store) (t : TargetId) : Prop :=
  ∃ id q, queries st !! id = Some q ∧ targetId q = t.

(** Modelled from the spec: the matched-key set of a target, "empty set,
    not absent, if the target has no matches or does not exist". *)
Definition matchedKeys (st : Store) (t : TargetId) : gset DocumentKey :=
  default ∅ (matched st !! t).

(** Modelled from the spec: [addQueryData] "inserts the record and
    initializes an empty matched-key set for its target. Fails if the target
    id already has a record (caller error)." *)
Definition addQueryData (txn : PersistenceTransaction) (q : QueryData)
    : PersistencePromise Store unit :=
  λ st,
    if isTracked st (targetId q)
    then fail "addQueryData: the target id already has a record"
    else Ok (tt, with_matched
                   (with_queries st (<[Query_canonicalId (query q) := q]> (queries st)))
                   (<[targetId q := ∅]> (matched st))).

(** Modelled from the spec: [updateQueryData] "replaces the stored record
    wholesale". *)
Definition updateQueryData (txn : PersistenceTransaction) (q : QueryData)
    : PersistencePromise Store unit :=
  λ st, Ok (tt, with_queries st (<[Query_canonicalId (query q) := q]> (queries st))).

(** Modelled from the spec: [getQueryCount] "returns the number of
    currently-tracked targets". *)
Definition getQueryCount (txn : PersistenceTransaction)
    : PersistencePromise Store Z :=
  λ st, Ok (Z.of_nat (size (queries st)), st).

(** Modelled from the spec: [removeQueryData] "removes the per-target
    record. Does not implicitly clear the matched-key set". *)
Definition removeQueryData (txn : PersistenceTransaction) (q : QueryData)
    : PersistencePromise Store unit :=
  λ st, Ok (tt, with_queries st (delete (Query_canonicalId (query q)) (queries st))).

(** Modelled from the spec: [getQueryData] "returns the stored QueryData for
    that exact query, or absent if not currently listened to. Lookup key is
    the query's canonical identity, not the target id." *)
Definition getQueryData (txn : PersistenceTransaction) (q : Query)
    : PersistencePromise Store (option QueryData) :=
  λ st, Ok (queries st !! Query_canonicalId q, st).

(** Modelled from the spec: [getLastRemoteSnapshotVersion] reads the global
    target metadata. *)
Definition getLastRemoteSnapshotVersion (txn : PersistenceTransaction)
    : PersistencePromise Store SnapshotVersion :=
  λ st, Ok (lastRemoteSnapshotVersion st, st).

(** Modelled from the spec: [allocateTargetId] "returns a fresh TargetId
    strictly greater than any previously allocated id ... and persists the
    new high-water mark as part of the same transaction". *)
Definition allocateTargetId (txn : PersistenceTransaction)
    : PersistencePromise Store TargetId :=
  λ st,
    let nextTargetId := highestTargetId st + 1 in
    Ok (nextTargetId, with_highestTargetId st nextTargetId).

(** Modelled from the spec: [addMatchingKeys] "idempotently adds each key to
    the target's matched set". *)
Definition addMatchingKeys (txn : PersistenceTransaction)
    (keys : gset DocumentKey) (t : TargetId) : PersistencePromise Store unit :=
  λ st, Ok (tt, with_matched st (<[t := matchedKeys st t ∪ keys]> (matched st))).

(** Modelled from the spec: [removeMatchingKeys] "idempotently removes each
    key from the target's matched set". *)
Definition removeMatchingKeys (txn : PersistenceTransaction)
    (keys : gset DocumentKey) (t : TargetId) : PersistencePromise Store unit :=
  λ st, Ok (tt, with_matched st (<[t := matchedKeys st t ∖ keys]> (matched st))).

(** Modelled from the spec: [getMatchingKeysForTargetId] "returns the
    current matched-key set for that target". *)
Definition getMatchingKeysForTargetId (txn : PersistenceTransaction)
    (t : TargetId) : PersistencePromise Store (gset DocumentKey) :=
  λ st, Ok (matchedKeys st t, st).

(** Modelled from the spec: [removeMatchingKeysForTargetId] "clears the
    entire matched-key set for that target in one step". *)
Definition removeMatchingKeysForTargetId (txn : PersistenceTransaction)
    (t : TargetId) : PersistencePromise Store unit :=
  λ st, Ok (tt, with_matched st (delete t (matched st))).

(** Modelled from the spec: [containsKey] "returns true iff any
    currently-tracked target's matched set contains the key". *)
Definition containsKey (txn : PersistenceTransaction) (k : DocumentKey)
    : PersistencePromise Store bool :=
  λ st, Ok (existsb (λ t, bool_decide (k ∈ matchedKeys st t)) (trackedTargets st), st).

(** Modelled from the spec: [setTargetsMetadata] "persists the global
    watermark; lastRemoteSnapshotVersion is only overwritten when
    supplied". *)
Definition setTargetsMetadata (txn : PersistenceTransaction)
    (n : Z) (v : option SnapshotVersion) : PersistencePromise Store unit :=
  λ st, Ok (tt, with_metadata st n (default (lastRemoteSnapshotVersion st) v)).

#[global] Instance spec_QueryCache : QueryCache Store := {|
  cache_addQueryData := addQueryData;
  cache_updateQueryData := updateQueryData;
  cache_getQueryCount := getQueryCount;
  cache_removeQueryData := removeQueryData;
  cache_getQueryData := getQueryData;
  cache_getLastRemoteSnapshotVersion := getLastRemoteSnapshotVersion;
  cache_allocateTargetId := allocateTargetId;
  cache_addMatchingKeys := addMatchingKeys;
  cache_removeMatchingKeys := removeMatchingKeys;
  cache_getMatchingKeysForTargetId := getMatchingKeysForTargetId;
  cache_removeMatchingKeysForTargetId := removeMatchingKeysForTargetId;
  cache_containsKey := containsKey;
  cache_setTargetsMetadata := setTargetsMetadata;
|}.

(** Modelled from the spec: [Persistence.runTransaction(label, flag, body)]
    runs the body as one atomic unit: its writes are kept when it succeeds,
    and a failure propagates to the caller and leaves the store as it was.
    The label is diagnostic only; the specification attaches no enforcement
    to the flag, which is handed to the body with the label. *)
Definition spec_runTransaction {T : Type} (action : string) (flag : bool)
    (body : PersistenceTransaction → PersistencePromise Store T)
    : Promise Store T :=
  λ st,
    match body {| txn_action := action; txn_flag := flag |} st with
    | Ok (r, st') => (Ok r, st')
    | Err e => (Err e, st)
    end.

#[global] Instance spec_Persistence : Persistence Store := {|
  runTransaction := @spec_runTransaction;
|}.

End Store.
End SpecCache.

(** ** Sequences of wrapper calls

    A client session is a list of [TestQueryCache] calls, each awaited before
    the next; [run] threads the store through them and collects, in order,
    the target ids that the [allocateTargetId] calls returned. *)

Module Session.
Section Run.
Context `{!Collaborators} `{!CacheCollaborators}.

Inductive Call : Type :=
| Allocate
| AddQueryData (q : QueryData)
| UpdateQueryData (q : QueryData)
| RemoveQueryData (q : QueryData)
| AddMatchingKeys (keys : list DocumentKey) (t : TargetId)
| RemoveMatchingKeys (keys : list DocumentKey) (t : TargetId)
| RemoveMatchingKeysForTargetId (t : TargetId)
| SetTargetsMetadata (n : Z) (v : option SnapshotVersion).

Definition is_Allocate (c : Call) : bool :=
  match c with Allocate => true | _ => false end.

(** How many [allocateTargetId] calls a session makes. *)
Definition allocations (calls : list Call) : nat :=
  length (List.filter is_Allocate calls).

Definition perform (c : Call) (st : SpecCache.Store)
    : option TargetId * SpecCache.Store :=
  match c with
  | Allocate =>
      match TestQueryCache.allocateTargetId st with
      | (Ok t, st') => (Some t, st')
      | (Err _, st') => (None, st')
      end
  | AddQueryData q => (None, snd (TestQueryCache.addQueryData q st))
  | UpdateQueryData q => (None, snd (TestQueryCache.updateQueryData q st))
  | RemoveQueryData q => (None, snd (TestQueryCache.removeQueryData q st))
  | AddMatchingKeys keys t =>
      (None, snd (TestQueryCache.addMatchingKeys keys t st))
  | RemoveMatchingKeys keys t =>
      (None, snd (TestQueryCache.removeMatchingKeys keys t st))
  | RemoveMatchingKeysForTargetId t =>
      (None, snd (TestQueryCache.removeMatchingKeysForTargetId t st))
  | SetTargetsMetadata n v =>
      (None, snd (TestQueryCache.setTargetsMetadata n v st))
  end.

Fixpoint run (calls : list Call) (st : SpecCache.Store)
    : list TargetId * SpecCache.Store :=
  match calls with
  | [] => ([], st)
  | c :: rest =>
      let '(r, st1) := perform c st in
      let '(ids, st2) := run rest st1 in
      (match r with Some t => t :: ids | None => ids end, st2)
  end.

End Run.
End Session.

(** ** A concrete choice of collaborators

    Small stand-ins for the imported types, used to evaluate the model on
    explicit documents and stores. *)

Module Sample.

Definition number_of_comparison (c : comparison) : Z :=
  match c with Lt => -1 | Eq => 0 | Gt => 1 end.

(** Modelled from the spec: a JSON-like JavaScript value ([AnyJs] of
    [util/misc]). *)
#[warnings="-register-all"] Inductive Js : Type :=
| js_undefined
| js_null
| js_boolean (b : bool)
| js_number (z : Z)
| js_string (s : string)
| js_object (members : list (string * Js)).

(** Modelled from the spec: field values ([FieldValue] of
    [model/field_value]) with a [compareTo] and a [value()]; values of
    different kinds are ordered by kind. *)
Inductive Field : Type :=
| NullValue
| BooleanValue (b : bool)
| IntegerValue (z : Z)
| StringValue (s : string).

Definition typeOrder (f : Field) : Z :=
  match f with
  | NullValue => 0
  | BooleanValue _ => 1
  | IntegerValue _ => 2
  | StringValue _ => 4
  end.

Definition Field_compareTo (a b : Field) : Z :=
  match a, b with
  | NullValue, NullValue => 0
  | BooleanValue x, BooleanValue y =>
      number_of_comparison (Bool.compare x y)
  | IntegerValue x, IntegerValue y => number_of_comparison (x ?= y)
  | StringValue x, StringValue y => number_of_comparison (String.compare x y)
  | _, _ => number_of_comparison (typeOrder a ?= typeOrder b)
  end.

Definition Field_value (f : Field) : Js :=
  match f with
  | NullValue => js_null
  | BooleanValue b => js_boolean b
  | IntegerValue z => js_number z
  | StringValue s => js_string s
  end.

Definition Field_eqb (a b : Field) : bool :=
  match a, b with
  | NullValue, NullValue => true
  | BooleanValue x, BooleanValue y => Bool.eqb x y
  | IntegerValue x, IntegerValue y => x =? y
  | StringValue x, StringValue y => String.eqb x y
  | _, _ => false
  end.

(** Modelled from the spec: the document body ([ObjectValue]) as a list of
    named fields, addressed by a one-segment [FieldPath]. *)
Fixpoint Object_field (o : list (string * Field)) (path : string)
    : option Field :=
  match o with
  | [] => None
  | (name, f) :: rest =>
      if String.eqb name path then Some f else Object_field rest path
  end.

Definition Object_value (o : list (string * Field)) : Js :=
  js_object (map (λ nf, (fst nf, Field_value (snd nf))) o).

Fixpoint Object_isEqual (a b : list (string * Field)) : bool :=
  match a, b with
  | [], [] => true
  | (n1, f1) :: a', (n2, f2) :: b' =>
      String.eqb n1 n2 && Field_eqb f1 f2 && Object_isEqual a' b'
  | _, _ => false
  end.

(** Modelled from the spec: document keys are slash-separated paths in their
    lexicographic order; snapshot versions are timestamps counted from the
    minimum version [0]. *)
#[export] Instance collaborators : Collaborators := {|
  DocumentKey := string;
  DocumentKey_comparator := λ a b, number_of_comparison (String.compare a b);
  DocumentKey_isEqual := String.eqb;
  SnapshotVersion := N;
  SnapshotVersion_MIN := 0%N;
  SnapshotVersion_compareTo := λ a b, number_of_comparison (N.compare a b);
  SnapshotVersion_isEqual := N.eqb;
  FieldPath := string;
  AnyJs := Js;
  undefined := js_undefined;
  FieldValue := Field;
  FieldValue_compareTo := Field_compareTo;
  FieldValue_value := Field_value;
  ObjectValue := list (string * Field);
  ObjectValue_field := Object_field;
  ObjectValue_value := Object_value;
  ObjectValue_isEqual := Object_isEqual;
|}.

(** Modelled from the spec: a query is identified by its canonical
    identity. *)
#[export] Instance cacheCollaborators : CacheCollaborators := {|
  DocumentKey_eq_dec := String.eq_dec;
  DocumentKey_countable := String.countable;
  Query := string;
  Query_canonicalId := λ q, q;
|}.

(** Modelled from the spec: keys print as their path, versions as their
    number and a document body as the list of its field names. *)
#[export] Instance printable : Printable := {|
  DocumentKey_toString := λ k, k;
  SnapshotVersion_toString := λ v, pretty v;
  ObjectValue_toString :=
    λ o, String.concat "," (map (λ nf : string * Field, fst nf) o);
|}.

Definition version (n : N) : SnapshotVersion := n.

Definition doc (k : string) (rv cv : N) (dat : list (string * Field))
    (mutated : bool) : Document :=
  new_Document k rv cv dat {| opt_hasLocalMutations := mutated |}.

Definition nodoc (k : string) (rv cv : N) : NoDocument :=
  new_NoDocument k rv cv.

Definition queryData (q : string) (t : Z) : QueryData :=
  {| query := q; targetId := t; sequenceNumber := 0;
     snapshotVersion := 0%N; resumeToken := "" |}.

Definition emptyStore : SpecCache.Store :=
  {| SpecCache.queries := ∅;
     SpecCache.matched := ∅;
     SpecCache.highestTargetId := 0;
     SpecCache.highestListenSequenceNumber := 0;
     SpecCache.lastRemoteSnapshotVersion := 0%N |}.

(** A store with one tracked target, [1], matching the keys [rooms/a] and
    [rooms/b]. *)
Definition oneTarget : SpecCache.Store :=
  snd (Session.run
         [Session.AddQueryData (queryData "rooms" 1);
          Session.AddMatchingKeys ["rooms/a"; "rooms/b"]%string 1]
         emptyStore).

End Sample.

(** ** Laws the specification asks of the collaborators *)

(** [isEqual] of the imported value types accepts identical arguments. *)
Record ReflexiveEquality `{!Collaborators} : Prop := {
  DocumentKey_isEqual_refl : ∀ k, DocumentKey_isEqual k k = true;
  SnapshotVersion_isEqual_refl : ∀ v, SnapshotVersion_isEqual v v = true;
  ObjectValue_isEqual_refl : ∀ o, ObjectValue_isEqual o o = true;
}.

(** [isEqual] of the imported value types does not depend on which of the
    two values is the receiver. *)
Record SymmetricEquality `{!Collaborators} : Prop := {
  DocumentKey_isEqual_sym :
    ∀ a b, DocumentKey_isEqual a b = DocumentKey_isEqual b a;
  SnapshotVersion_isEqual_sym :
    ∀ a b, SnapshotVersion_isEqual a b = SnapshotVersion_isEqual b a;
  ObjectValue_isEqual_sym :
    ∀ a b, ObjectValue_isEqual a b = ObjectValue_isEqual b a;
}.

(** [isEqual] of the imported value types holds of equal values only. *)
Record DecidingEquality `{!Collaborators} : Prop := {
  DocumentKey_isEqual_eq : ∀ a b, DocumentKey_isEqual a b = true ↔ a = b;
  SnapshotVersion_isEqual_eq :
    ∀ a b, SnapshotVersion_isEqual a b = true ↔ a = b;
  ObjectValue_isEqual_eq : ∀ a b, ObjectValue_isEqual a b = true ↔ a = b;
}.

(** A comparator of a total order: zero exactly on equal arguments, the sign
    flips when the arguments are swapped, and "not greater" is transitive. *)
Record TotalComparator {A : Type} (cmp : A → A → Z) : Prop := {
  cmp_eq : ∀ a b, cmp a b = 0 ↔ a = b;
  cmp_swap : ∀ a b, Z.sgn (cmp b a) = - Z.sgn (cmp a b);
  cmp_trans : ∀ a b c, cmp a b <= 0 → cmp b c <= 0 → cmp a c <= 0;
}.

(** * Properties of the document model *)

Section DocumentProperties.
Context `{!Collaborators}.

Lemma hasPendingWrites_unfold (d : Document) (v : SnapshotVersion) :
  Document.hasPendingWrites d v =
    (hasLocalMutations d
     || (negb (SnapshotVersion_isEqual v SnapshotVersion_MIN)
         && (0 <=? SnapshotVersion_compareTo (commitVersion d) v)
         && (0 <? SnapshotVersion_compareTo (commitVersion d) (remoteVersion d)))).
Proof.
  unfold Document.hasPendingWrites.
  rewrite Z.geb_leb, Z.gtb_ltb.
  destruct (hasLocalMutations d); [reflexivity|]. simpl.
  destruct (negb _ && _); reflexivity.
Qed.

(** C1: [hasPendingWrites] is decided in three ordered steps.  A document
    with local mutations has pending writes whatever the versions are.
    Without local mutations, when the base version is not [MIN] and the
    commit version is at least the base version, the answer is whether the
    commit version is greater than the remote version.  In every remaining
    case the answer is [false]. *)
Theorem hasPendingWrites_decided (d : Document) (v : SnapshotVersion) :
  (hasLocalMutations d = true → Document.hasPendingWrites d v = true)
  ∧ (hasLocalMutations d = false →
     SnapshotVersion_isEqual v SnapshotVersion_MIN = false →
     SnapshotVersion_compareTo (commitVersion d) v >= 0 →
     Document.hasPendingWrites d v
     = (SnapshotVersion_compareTo (commitVersion d) (remoteVersion d) >? 0))
  ∧ (hasLocalMutations d = false →
     SnapshotVersion_isEqual v SnapshotVersion_MIN = true
     ∨ SnapshotVersion_compareTo (commitVersion d) v < 0 →
     Document.hasPendingWrites d v = false).
Proof.
  unfold Document.hasPendingWrites. repeat split.
  - intros ->. reflexivity.
  - intros -> -> Hge. simpl.
    destruct (Z.geb_spec (SnapshotVersion_compareTo (commitVersion d) v) 0);
      [reflexivity | lia].
  - intros -> [-> | Hlt]; [reflexivity|].
    destruct (Z.geb_spec (SnapshotVersion_compareTo (commitVersion d) v) 0);
      [lia|].
    rewrite andb_false_r. reflexivity.
Qed.

(** The examples of the specification's first two testable properties. *)
Lemma hasPendingWrites_local_mutations (d : Document) (v : SnapshotVersion) :
  hasLocalMutations d = true → Document.hasPendingWrites d v = true.
Proof. intros Hm. rewrite hasPendingWrites_unfold, Hm. reflexivity. Qed.

Lemma hasPendingWrites_MIN (d : Document) :
  ReflexiveEquality →
  hasLocalMutations d = false →
  Document.hasPendingWrites d SnapshotVersion_MIN = false.
Proof.
  intros [_ Hrefl _] Hno. unfold Document.hasPendingWrites.
  rewrite Hno, Hrefl. reflexivity.
Qed.

(** Reflexivity of both [isEqual] methods, and the direction of the variant
    check that [Document.isEqual] performs. *)
Lemma Document_isEqual_refl (d : Document) :
  ReflexiveEquality → Document.isEqual d (JsDocument d) = Ok true.
Proof.
  intros [Hk Hv Ho]. unfold Document.isEqual. simpl.
  rewrite Hk, !Hv, Ho, Bool.eqb_reflx. reflexivity.
Qed.

Lemma NoDocument_isEqual_refl (n : NoDocument) :
  ReflexiveEquality → NoDocument.isEqual n (JsNoDocument n) = Ok (JsBool true).
Proof.
  intros [Hk Hv Ho]. unfold NoDocument.isEqual. simpl.
  rewrite Hk, !Hv. reflexivity.
Qed.

Lemma Document_isEqual_NoDocument (d : Document) (n : NoDocument) :
  Document.isEqual d (JsNoDocument n) = Ok false.
Proof. reflexivity. Qed.

(** C2: [NoDocument.isEqual] has no variant check: handed a [Document] with
    the same key, remote version and commit version it answers [true],
    whereas [Document.isEqual] answers [false] for the same pair. *)
Theorem NoDocument_isEqual_accepts_Document (n : NoDocument) (d : Document) :
  ReflexiveEquality →
  key d = key n →
  remoteVersion d = remoteVersion n →
  commitVersion d = commitVersion n →
  NoDocument.isEqual n (JsDocument d) = Ok (JsBool true)
  ∧ Document.isEqual d (JsNoDocument n) = Ok false.
Proof.
  intros [Hk Hv Ho] Ek Er Ec. split; [|reflexivity].
  unfold NoDocument.isEqual. simpl.
  rewrite Ek, Er, Ec, Hk, !Hv. reflexivity.
Qed.

(** C3: [compareByField] raises the fatal assertion exactly when one of the
    two documents has no value at the path; when both have one, the result
    is the [compareTo] of the two values; with a value missing no number is
    returned at all. *)
Theorem compareByField_fails_iff_field_missing
    (path : FieldPath) (d1 d2 : Document) :
  (fatal (Document.compareByField path d1 d2)
   ↔ Document.field d1 path = None ∨ Document.field d2 path = None)
  ∧ (throws (Document.compareByField path d1 d2)
     ↔ fatal (Document.compareByField path d1 d2))
  ∧ (∀ v1 v2,
       Document.field d1 path = Some v1 →
       Document.field d2 path = Some v2 →
       Document.compareByField path d1 d2 = Ok (FieldValue_compareTo v1 v2))
  ∧ (Document.field d1 path = None ∨ Document.field d2 path = None →
     ∀ z, Document.compareByField path d1 d2 ≠ Ok z).
Proof.
  unfold Document.compareByField, fail.
  destruct (Document.field d1 path) as [f1|], (Document.field d2 path) as [f2|];
    simpl; repeat split; try tauto; try congruence;
    try (intros [?|?]; congruence); try (intros _; intros; congruence).
Qed.

(** C4: [NoDocument] has no data payload and neither declares nor inherits
    [field] or [value]: the two projections exist on [Document] only, where
    they read [data].  Calling either on a [NoDocument] does not return. *)
Theorem NoDocument_has_no_projections :
  resolve CNoDocument "field" = None
  ∧ resolve CNoDocument "value" = None
  ∧ (∀ (n : NoDocument) (path : FieldPath),
       throws (Dispatch.call_field (IsNoDocument n) path))
  ∧ (∀ n : NoDocument, throws (Dispatch.call_value (IsNoDocument n)))
  ∧ (∀ (d : Document) (path : FieldPath),
       Dispatch.call_field (IsDocument d) path
       = Ok (ObjectValue_field (data d) path))
  ∧ (∀ d : Document,
       Dispatch.call_value (IsDocument d) = Ok (ObjectValue_value (data d))).
Proof. repeat split. Qed.

(** C8: [compareByKey] is the key comparator applied to the two keys.  It
    reads nothing but the keys, and when the key comparator is that of a
    total order it orders documents totally by key: two documents compare
    equal exactly when their keys are equal, swapping them flips the sign,
    "not greater" is transitive, and any two documents are comparable. *)
Theorem compareByKey_orders_by_key :
  TotalComparator DocumentKey_comparator →
  (∀ d1 d2,
     MaybeDocument.compareByKey d1 d2
     = DocumentKey_comparator (key (maybe_fields d1)) (key (maybe_fields d2)))
  ∧ (∀ d1 d2 e1 e2,
       key (maybe_fields d1) = key (maybe_fields e1) →
       key (maybe_fields d2) = key (maybe_fields e2) →
       MaybeDocument.compareByKey d1 d2 = MaybeDocument.compareByKey e1 e2)
  ∧ (∀ d1 d2,
       MaybeDocument.compareByKey d1 d2 = 0
       ↔ key (maybe_fields d1) = key (maybe_fields d2))
  ∧ (∀ d1 d2,
       Z.sgn (MaybeDocument.compareByKey d2 d1)
       = - Z.sgn (MaybeDocument.compareByKey d1 d2))
  ∧ (∀ d1 d2 d3,
       MaybeDocument.compareByKey d1 d2 <= 0 →
       MaybeDocument.compareByKey d2 d3 <= 0 →
       MaybeDocument.compareByKey d1 d3 <= 0)
  ∧ (∀ d1 d2,
       MaybeDocument.compareByKey d1 d2 <= 0
       ∨ MaybeDocument.compareByKey d2 d1 <= 0).
Proof.
  intros [Heq Hswap Htrans]. unfold MaybeDocument.compareByKey.
  split; [reflexivity|].
  split; [intros d1 d2 e1 e2 -> ->; reflexivity|].
  split; [intros; apply Heq|].
  split; [intros; apply Hswap|].
  split; [intros d1 d2 d3; apply Htrans|].
  intros d1 d2.
  specialize (Hswap (key (maybe_fields d1)) (key (maybe_fields d2))).
  lia.
Qed.

(** C9: [Document.isEqual] returns [false], and does not throw, for [null],
    for [undefined] and for every argument that is not a [Document]
    instance. *)
Theorem Document_isEqual_rejects_non_documents (d : Document) :
  Document.isEqual d JsNull = Ok false
  ∧ Document.isEqual d JsUndefined = Ok false
  ∧ (∀ other : JsRef,
       (∀ d' : Document, other ≠ JsDocument d') →
       Document.isEqual d other = Ok false)
  ∧ (∀ other : JsRef, ¬ throws (Document.isEqual d other)).
Proof.
  repeat split.
  - intros other Hno. destruct other; try reflexivity.
    exfalso. eapply Hno. reflexivity.
  - intros other. destruct other; simpl; tauto.
Qed.

(** C10: [fieldValue] is [undefined] when the document has no field at the
    path and is otherwise [value()] of the field found there; as no field
    value converts to [undefined], it is [undefined] exactly when the field
    is absent. *)
Theorem fieldValue_follows_field (d : Document) (path : FieldPath) :
  (Document.field d path = None → Document.fieldValue d path = undefined)
  ∧ (∀ f, Document.field d path = Some f →
          Document.fieldValue d path = FieldValue_value f)
  ∧ ((∀ f, FieldValue_value f ≠ undefined) →
     (Document.fieldValue d path = undefined ↔ Document.field d path = None)).
Proof.
  unfold Document.fieldValue.
  destruct (Document.field d path) as [f|].
  - split; [discriminate|]. split.
    + intros f' [= ->]. reflexivity.
    + intros Hdef. split; [|discriminate].
      intros E. exfalso. exact (Hdef f E).
  - split; [reflexivity|]. split; [discriminate|].
    intros _. split; reflexivity.
Qed.

End DocumentProperties.

(** * Properties of the query cache behind the wrapper *)

Section CacheProperties.
Context `{!Collaborators} `{!CacheCollaborators}.

Lemma isTracked_spec (st : SpecCache.Store) (t : TargetId) :
  SpecCache.isTracked st t = true ↔ SpecCache.tracked st t.
Proof.
  unfold SpecCache.isTracked, SpecCache.tracked, SpecCache.trackedTargets.
  rewrite bool_decide_eq_true, list_elem_of_fmap. split.
  - intros [[id q] [-> Hin]]. apply elem_of_map_to_list in Hin. eauto.
  - intros (id & q & Hq & <-). exists (id, q). split; [reflexivity|].
    apply elem_of_map_to_list. exact Hq.
Qed.

Lemma isTracked_false (st : SpecCache.Store) (t : TargetId) :
  ¬ SpecCache.tracked st t → SpecCache.isTracked st t = false.
Proof.
  intros Hno. destruct (SpecCache.isTracked st t) eqn:E; [|reflexivity].
  apply isTracked_spec in E. contradiction.
Qed.

Lemma tracked_in_list (st : SpecCache.Store) (t : TargetId) :
  SpecCache.tracked st t → In t (SpecCache.trackedTargets st).
Proof.
  intros Ht. apply isTracked_spec in Ht. unfold SpecCache.isTracked in Ht.
  apply bool_decide_eq_true in Ht. apply list_elem_of_In. exact Ht.
Qed.

Lemma getMatchingKeysForTargetId_elements (st : SpecCache.Store) (t : TargetId) :
  TestQueryCache.getMatchingKeysForTargetId t st
  = (Ok (elements (SpecCache.matchedKeys st t)), st).
Proof. reflexivity. Qed.

Lemma containsKey_value (st : SpecCache.Store) (k : DocumentKey) :
  TestQueryCache.containsKey k st
  = (Ok (existsb (λ t, bool_decide (k ∈ SpecCache.matchedKeys st t))
           (SpecCache.trackedTargets st)), st).
Proof. reflexivity. Qed.

Lemma existsb_matched_true (st : SpecCache.Store) (k : DocumentKey) :
  existsb (λ t, bool_decide (k ∈ SpecCache.matchedKeys st t))
    (SpecCache.trackedTargets st) = true
  ↔ ∃ t, SpecCache.tracked st t ∧ k ∈ SpecCache.matchedKeys st t.
Proof.
  rewrite existsb_exists. split.
  - intros (t & Hin & Hk). exists t. split.
    + apply isTracked_spec. unfold SpecCache.isTracked.
      apply bool_decide_eq_true. apply list_elem_of_In. exact Hin.
    + apply bool_decide_eq_true in Hk. exact Hk.
  - intros (t & Ht & Hk). exists t. split.
    + apply isTracked_spec in Ht. unfold SpecCache.isTracked in Ht.
      apply bool_decide_eq_true in Ht. apply list_elem_of_In. exact Ht.
    + apply bool_decide_eq_true. exact Hk.
Qed.

(** C5: [containsKey] answers [true] exactly when some currently-tracked
    target has the key in its matched set; once the matched set of the only
    such target is cleared, it answers [false]. *)
Theorem containsKey_iff_matched_by_tracked_target
    (st : SpecCache.Store) (k : DocumentKey) :
  (∃ b, TestQueryCache.containsKey k st = (Ok b, st)
        ∧ (b = true
           ↔ ∃ t, SpecCache.tracked st t ∧ k ∈ SpecCache.matchedKeys st t))
  ∧ (∀ t,
       (∀ t', SpecCache.tracked st t' → k ∈ SpecCache.matchedKeys st t' →
              t' = t) →
       ∃ st',
         TestQueryCache.removeMatchingKeysForTargetId t st = (Ok tt, st')
         ∧ TestQueryCache.containsKey k st' = (Ok false, st')).
Proof.
  split.
  - eexists. split; [apply containsKey_value|]. apply existsb_matched_true.
  - intros t Honly. eexists. split; [reflexivity|].
    rewrite containsKey_value. f_equal. f_equal.
    apply not_true_is_false. intros Htrue.
    apply existsb_matched_true in Htrue as (t' & Ht' & Hk).
    unfold SpecCache.matchedKeys in Hk. simpl in Hk.
    destruct (decide (t' = t)) as [->|Hne].
    + rewrite lookup_delete_eq in Hk. simpl in Hk. set_solver.
    + rewrite lookup_delete_ne in Hk by congruence.
      apply Hne, Honly; [exact Ht'|exact Hk].
Qed.

(** What one call does to the high-water mark: an [allocateTargetId] call
    returns a larger id and stores it; every other call leaves the mark
    alone and returns no id. *)
Lemma perform_highestTargetId (c : Session.Call) (st : SpecCache.Store) :
  match Session.perform c st with
  | (Some t, st1) =>
      Session.is_Allocate c = true
      ∧ SpecCache.highestTargetId st < t
      ∧ SpecCache.highestTargetId st1 = t
  | (None, st1) =>
      Session.is_Allocate c = false
      ∧ SpecCache.highestTargetId st1 = SpecCache.highestTargetId st
  end.
Proof.
  destruct c; simpl; try (split; reflexivity).
  - repeat split. lia.
  - unfold TestQueryCache.addQueryData. simpl.
    unfold SpecCache.spec_runTransaction, SpecCache.addQueryData.
    destruct (SpecCache.isTracked st (targetId q)); split; reflexivity.
Qed.

Lemma run_invariant (calls : list Session.Call) :
  ∀ st : SpecCache.Store,
    SpecCache.highestTargetId st
      <= SpecCache.highestTargetId (snd (Session.run calls st))
    ∧ Forall (λ t, SpecCache.highestTargetId st < t
                   ∧ t <= SpecCache.highestTargetId (snd (Session.run calls st)))
        (fst (Session.run calls st))
    ∧ StronglySorted Z.lt (fst (Session.run calls st))
    ∧ length (fst (Session.run calls st)) = Session.allocations calls.
Proof.
  induction calls as [|c rest IH]; intros st.
  - simpl. repeat split; try constructor. lia.
  - unfold Session.allocations. simpl.
    pose proof (perform_highestTargetId c st) as Hc.
    destruct (Session.perform c st) as [r st1].
    specialize (IH st1). destruct (Session.run rest st1) as [ids st2].
    simpl in IH. destruct IH as (Hle & Hall & Hsorted & Hlen).
    destruct r as [t|].
    + destruct Hc as (-> & Hlt & Heq). simpl. subst t.
      repeat split.
      * lia.
      * constructor; [lia|].
        eapply Forall_impl; [exact Hall|]. simpl. intros; lia.
      * constructor; [exact Hsorted|].
        eapply Forall_impl; [exact Hall|]. simpl. intros; lia.
      * f_equal. exact Hlen.
    + destruct Hc as (-> & Heq). simpl. rewrite <- Heq.
      repeat split; assumption.
Qed.

Lemma StronglySorted_lt_NoDup (l : list Z) : StronglySorted Z.lt l → NoDup l.
Proof.
  induction 1 as [|x l Hs IH Hall]; constructor; [|exact IH].
  intros Hin. rewrite Forall_forall in Hall.
  specialize (Hall x Hin). lia.
Qed.

(** C6: in any session, whatever other calls run in between (removals of
    targets included), every [allocateTargetId] call returns an id, and the
    ids returned are strictly increasing, hence without repeats, and all
    above the mark the session started from; each call stores the id it
    returns as the new high-water mark in the transaction that computed
    it. *)
Theorem allocateTargetId_strictly_increasing
    (calls : list Session.Call) (st : SpecCache.Store) :
  length (fst (Session.run calls st)) = Session.allocations calls
  ∧ StronglySorted Z.lt (fst (Session.run calls st))
  ∧ NoDup (fst (Session.run calls st))
  ∧ Forall (λ t, SpecCache.highestTargetId st < t) (fst (Session.run calls st))
  ∧ (∀ st0 : SpecCache.Store,
       ∃ t st1,
         TestQueryCache.allocateTargetId st0 = (Ok t, st1)
         ∧ SpecCache.highestTargetId st0 < t
         ∧ SpecCache.highestTargetId st1 = t).
Proof.
  destruct (run_invariant calls st) as (_ & Hall & Hsorted & Hlen).
  split; [exact Hlen|]. split; [exact Hsorted|].
  split; [apply StronglySorted_lt_NoDup, Hsorted|].
  split.
  - eapply Forall_impl; [exact Hall|]. simpl. intros t [Hlt _]. exact Hlt.
  - intros st0. eexists _, _. split; [reflexivity|]. simpl. split; [lia|reflexivity].
Qed.

(** C7: adding a record whose target id is not yet tracked succeeds, and a
    lookup of its query, or of any query with the same canonical identity,
    then returns that very record, while lookups of other identities are
    unaffected; after removing a record, a lookup of its query returns
    absent.  Lookups never read the target id: queries of one canonical
    identity always get the same answer. *)
Theorem queryData_round_trip (st : SpecCache.Store) (q : QueryData) :
  (¬ SpecCache.tracked st (targetId q) →
   ∃ st1,
     TestQueryCache.addQueryData q st = (Ok tt, st1)
     ∧ TestQueryCache.getQueryData (query q) st1 = (Ok (Some q), st1)
     ∧ (∀ q', Query_canonicalId q' = Query_canonicalId (query q) →
              TestQueryCache.getQueryData q' st1 = (Ok (Some q), st1))
     ∧ (∀ q', Query_canonicalId q' ≠ Query_canonicalId (query q) →
              fst (TestQueryCache.getQueryData q' st1)
              = fst (TestQueryCache.getQueryData q' st)))
  ∧ (∃ st2,
       TestQueryCache.removeQueryData q st = (Ok tt, st2)
       ∧ TestQueryCache.getQueryData (query q) st2 = (Ok None, st2))
  ∧ (∀ q1 q2, Query_canonicalId q1 = Query_canonicalId q2 →
              TestQueryCache.getQueryData q1 st
              = TestQueryCache.getQueryData q2 st).
Proof.
  split; [|split].
  - intros Hfresh. apply isTracked_false in Hfresh.
    unfold TestQueryCache.addQueryData, TestQueryCache.getQueryData. simpl.
    unfold SpecCache.spec_runTransaction, SpecCache.addQueryData,
      SpecCache.getQueryData.
    rewrite Hfresh. eexists. split; [reflexivity|]. simpl.
    split; [rewrite lookup_insert_eq; reflexivity|]. split.
    + intros q' ->. rewrite lookup_insert_eq. reflexivity.
    + intros q' Hne. rewrite lookup_insert_ne by congruence. reflexivity.
  - eexists. split; [reflexivity|].
    unfold TestQueryCache.getQueryData. simpl.
    unfold SpecCache.spec_runTransaction, SpecCache.getQueryData. simpl.
    rewrite lookup_delete_eq. reflexivity.
  - intros q1 q2 E.
    unfold TestQueryCache.getQueryData. simpl.
    unfold SpecCache.spec_runTransaction, SpecCache.getQueryData.
    rewrite E. reflexivity.
Qed.

End CacheProperties.

(** * Further properties of [document.ts] *)

Section DocumentEquality.
Context `{!Collaborators}.

Lemma MaybeDocumentFields_eq (a b : MaybeDocumentFields) :
  key a = key b → remoteVersion a = remoteVersion b →
  commitVersion a = commitVersion b → a = b.
Proof. destruct a, b; simpl; intros -> -> ->; reflexivity. Qed.

(** X1: when [isEqual] of keys, versions and document bodies holds of equal
    values only, [Document.isEqual] answers [true] for exactly one
    [Document]: the receiver itself, field for field. *)
Theorem Document_isEqual_decides_equality (d d' : Document) :
  DecidingEquality →
  (Document.isEqual d (JsDocument d') = Ok true ↔ d = d').
Proof.
  intros [Hk Hv Ho]. unfold Document.isEqual. simpl. split.
  - intros [= E].
    apply andb_true_iff in E as [E Em]. apply andb_true_iff in E as [E Ed].
    apply andb_true_iff in E as [E Ec]. apply andb_true_iff in E as [Ek Er].
    apply Hk in Ek. apply Hv in Er, Ec. apply Ho in Ed.
    apply Bool.eqb_prop in Em.
    destruct d as [sd dd md], d' as [sd' dd' md']; simpl in *.
    subst. f_equal. apply MaybeDocumentFields_eq; assumption.
  - intros <-. f_equal.
    rewrite (proj2 (Hk _ _) eq_refl), !(proj2 (Hv _ _) eq_refl),
      (proj2 (Ho _ _) eq_refl), Bool.eqb_reflx. reflexivity.
Qed.

(** X2: when [isEqual] of the imported types is symmetric, so are both
    [isEqual] methods within their own class, although [Document.isEqual]
    calls the receiver's fields on the argument's and [NoDocument.isEqual]
    the argument's fields on the receiver's. *)
Theorem isEqual_symmetric_within_class :
  SymmetricEquality →
  (∀ d1 d2 : Document,
     Document.isEqual d1 (JsDocument d2) = Document.isEqual d2 (JsDocument d1))
  ∧ (∀ n1 n2 : NoDocument,
       NoDocument.isEqual n1 (JsNoDocument n2)
       = NoDocument.isEqual n2 (JsNoDocument n1)).
Proof.
  intros [Hk Hv Ho]. split.
  - intros d1 d2. unfold Document.isEqual. simpl.
    rewrite (Hk (key d1)), (Hv (remoteVersion d1)), (Hv (commitVersion d1)),
      (Ho (data d1)).
    destruct (hasLocalMutations d1), (hasLocalMutations d2); reflexivity.
  - intros n1 n2. unfold NoDocument.isEqual. simpl.
    rewrite (Hk (key n2)), (Hv (remoteVersion n2)), (Hv (commitVersion n2)).
    reflexivity.
Qed.

(** X3: when [isEqual] of keys and versions holds of equal values only,
    [NoDocument.isEqual] answers [true] for exactly one [NoDocument]: the
    receiver itself. *)
Theorem NoDocument_isEqual_decides_equality (n n' : NoDocument) :
  DecidingEquality →
  (NoDocument.isEqual n (JsNoDocument n') = Ok (JsBool true) ↔ n = n').
Proof.
  intros [Hk Hv _]. unfold NoDocument.isEqual. simpl. split.
  - intros [= E].
    apply andb_true_iff in E as [E Ek]. apply andb_true_iff in E as [Er Ec].
    apply Hv in Er, Ec. apply Hk in Ek.
    destruct n as [sn], n' as [sn']; simpl in *. f_equal.
    apply MaybeDocumentFields_eq; congruence.
  - intros <-.
    rewrite (proj2 (Hk _ _) eq_refl), !(proj2 (Hv _ _) eq_refl). reflexivity.
Qed.


End DocumentEquality.

Section DocumentVersions.
Context `{!Collaborators}.

(** X5: pending writes always have a cause.  Whatever the base version,
    [hasPendingWrites] answers [true] only for a document that has local
    mutations or whose commit version is greater than its remote version; a
    document with neither never reports pending writes. *)
Theorem hasPendingWrites_has_a_cause (d : Document) (v : SnapshotVersion) :
  Document.hasPendingWrites d v = true →
  hasLocalMutations d = true
  ∨ SnapshotVersion_compareTo (commitVersion d) (remoteVersion d) > 0.
Proof.
  unfold Document.hasPendingWrites.
  destruct (hasLocalMutations d); [intros _; left; reflexivity|].
  destruct (negb _ && _); [|discriminate].
  intros Hgt. right. apply Z.gtb_lt in Hgt. lia.
Qed.

(** X6: among base versions other than [MIN], lowering the base version
    never clears pending writes: when versions are totally ordered by
    [compareTo], a document pending against a base version is pending
    against every earlier base version that is not [MIN]. *)
Theorem hasPendingWrites_earlier_base
    (d : Document) (v1 v2 : SnapshotVersion) :
  TotalComparator SnapshotVersion_compareTo →
  SnapshotVersion_isEqual v1 SnapshotVersion_MIN = false →
  SnapshotVersion_compareTo v1 v2 <= 0 →
  Document.hasPendingWrites d v2 = true →
  Document.hasPendingWrites d v1 = true.
Proof.
  intros [_ Hswap Htrans] Hmin Hle. unfold Document.hasPendingWrites.
  destruct (hasLocalMutations d); [reflexivity|].
  rewrite Hmin. simpl.
  destruct (negb (SnapshotVersion_isEqual v2 SnapshotVersion_MIN)); simpl;
    [|discriminate].
  destruct (Z.geb_spec (SnapshotVersion_compareTo (commitVersion d) v2) 0)
    as [Hge|]; [|discriminate].
  intros Hgt.
  destruct (Z.geb_spec (SnapshotVersion_compareTo (commitVersion d) v1) 0)
    as [|Hlt]; [exact Hgt|].
  exfalso.
  assert (H2 : SnapshotVersion_compareTo v2 (commitVersion d) <= 0).
  { specialize (Hswap (commitVersion d) v2). lia. }
  pose proof (Htrans _ _ _ Hle H2) as H1.
  specialize (Hswap (commitVersion d) v1). lia.
Qed.

(** X7: on documents that all have a value at the path, [compareByField]
    is a consistent comparator whenever [compareTo] of field values is one:
    it fails for a pair exactly when it fails for the swapped pair, swapping
    the documents flips the sign of the result, and from results for
    [(d1, d2)] and [(d2, d3)] there is a result for [(d1, d3)] that is "not
    greater" when those two are. *)
Theorem compareByField_consistent (path : FieldPath) :
  (∀ a b, Z.sgn (FieldValue_compareTo b a) = - Z.sgn (FieldValue_compareTo a b)) →
  (∀ a b c, FieldValue_compareTo a b <= 0 → FieldValue_compareTo b c <= 0 →
            FieldValue_compareTo a c <= 0) →
  (∀ d1 d2,
     fatal (Document.compareByField path d1 d2)
     ↔ fatal (Document.compareByField path d2 d1))
  ∧ (∀ d1 d2 z,
       Document.compareByField path d1 d2 = Ok z →
       ∃ z', Document.compareByField path d2 d1 = Ok z'
             ∧ Z.sgn z' = - Z.sgn z)
  ∧ (∀ d1 d2 d3 x y,
       Document.compareByField path d1 d2 = Ok x →
       Document.compareByField path d2 d3 = Ok y →
       ∃ z, Document.compareByField path d1 d3 = Ok z
            ∧ (x <= 0 → y <= 0 → z <= 0)).
Proof.
  intros Hswap Htrans. unfold Document.compareByField, fail.
  split; [|split].
  - intros d1 d2.
    destruct (Document.field d1 path), (Document.field d2 path); simpl; tauto.
  - intros d1 d2 z.
    destruct (Document.field d1 path) as [f1|],
             (Document.field d2 path) as [f2|]; try discriminate.
    intros [= <-]. eexists. split; [reflexivity|]. apply Hswap.
  - intros d1 d2 d3 x y.
    destruct (Document.field d1 path) as [f1|],
             (Document.field d2 path) as [f2|]; try discriminate.
    destruct (Document.field d3 path) as [f3|]; try discriminate.
    intros [= <-] [= <-]. eexists. split; [reflexivity|]. apply Htrans.
Qed.

End DocumentVersions.

Section DocumentPrinting.
Context `{!Collaborators} `{!Printable}.

(** X8: the printed forms of the two variants never coincide: whatever the
    keys, versions and bodies print as, [toString] of a [Document] differs
    from [toString] of a [NoDocument]. *)
Theorem toString_tells_variants_apart (d : Document) (n : NoDocument) :
  Document.toString d ≠ NoDocument.toString n.
Proof. unfold Document.toString, NoDocument.toString. simpl. discriminate. Qed.

(** X9: neither [toString] prints the commit version, which both [isEqual]
    methods compare: two documents that differ in nothing but commit
    versions that [isEqual] tells apart print the same and are not equal. *)
Theorem toString_omits_commitVersion :
  (∀ d d' : Document,
     key d = key d' → remoteVersion d = remoteVersion d' →
     data d = data d' → hasLocalMutations d = hasLocalMutations d' →
     SnapshotVersion_isEqual (commitVersion d) (commitVersion d') = false →
     Document.toString d = Document.toString d'
     ∧ Document.isEqual d (JsDocument d') = Ok false)
  ∧ (∀ n n' : NoDocument,
       key n = key n' → remoteVersion n = remoteVersion n' →
       SnapshotVersion_isEqual (commitVersion n') (commitVersion n) = false →
       NoDocument.toString n = NoDocument.toString n'
       ∧ NoDocument.isEqual n (JsNoDocument n') = Ok (JsBool false)).
Proof.
  split.
  - intros d d' Ek Er Ed Em Ec. split.
    + unfold Document.toString. rewrite Ek, Er, Ed, Em. reflexivity.
    + unfold Document.isEqual. simpl. rewrite Ec.
      rewrite andb_false_r. reflexivity.
  - intros n n' Ek Er Ec. split.
    + unfold NoDocument.toString. rewrite Ek, Er. reflexivity.
    + unfold NoDocument.isEqual. simpl. rewrite Ec.
      rewrite andb_false_r. reflexivity.
Qed.

End DocumentPrinting.

(** * Further properties of [test_query_cache.ts] *)

Section KeyArrays.
Context `{!Collaborators} `{!CacheCollaborators}.

Lemma fold_keySet_add (keys : list DocumentKey) (acc : gset DocumentKey) :
  fold_left keySet_add keys acc = list_to_set keys ∪ acc.
Proof.
  revert acc. induction keys as [|k keys IH]; intros acc; simpl.
  - rewrite union_empty_l_L. reflexivity.
  - rewrite IH. unfold keySet_add. apply set_eq. intros x.
    rewrite !elem_of_union. tauto.
Qed.

Lemma keySetOf_list_to_set (keys : list DocumentKey) :
  TestQueryCache.keySetOf keys = list_to_set keys.
Proof.
  unfold TestQueryCache.keySetOf, documentKeySet. rewrite fold_keySet_add.
  apply union_empty_r_L.
Qed.

Lemma keySetOf_same_members (keys keys' : list DocumentKey) :
  (∀ k, k ∈ keys ↔ k ∈ keys') →
  TestQueryCache.keySetOf keys = TestQueryCache.keySetOf keys'.
Proof.
  intros Hsame. rewrite !keySetOf_list_to_set. apply set_eq. intros k.
  rewrite !elem_of_list_to_set. apply Hsame.
Qed.

Context {W : Type} `{!Persistence W} `{!QueryCache W}.

(** X10: the loop that turns the key array into a key set keeps exactly the
    members of the array, so for every persistence layer and every cache
    [addMatchingKeys] and [removeMatchingKeys] do the same for two arrays
    with the same members, whatever their order and however often a key is
    repeated. *)
Theorem matchingKeys_array_as_set (keys : list DocumentKey) :
  (∀ k, k ∈ TestQueryCache.keySetOf keys ↔ k ∈ keys)
  ∧ (∀ (keys' : list DocumentKey) (t : TargetId),
       (∀ k, k ∈ keys ↔ k ∈ keys') →
       TestQueryCache.addMatchingKeys (W:=W) keys t
       = TestQueryCache.addMatchingKeys keys' t
       ∧ TestQueryCache.removeMatchingKeys (W:=W) keys t
         = TestQueryCache.removeMatchingKeys keys' t).
Proof.
  split.
  - intros k. rewrite keySetOf_list_to_set. apply elem_of_list_to_set.
  - intros keys' t Hsame.
    unfold TestQueryCache.addMatchingKeys, TestQueryCache.removeMatchingKeys.
    rewrite (keySetOf_same_members keys keys' Hsame). split; reflexivity.
Qed.

(** X11: for every persistence layer and every cache, the array that
    [getMatchingKeysForTargetId] builds from the returned key set lists
    each key of that set once, and a failed transaction is passed on with
    its error. *)
Theorem getMatchingKeysForTargetId_array (t : TargetId) (w : W) :
  (∀ l w',
     TestQueryCache.getMatchingKeysForTargetId t w = (Ok l, w') →
     NoDup l
     ∧ ∃ keySet,
         runTransaction "getMatchingKeysForTargetId" false
           (λ txn, cache_getMatchingKeysForTargetId txn t) w = (Ok keySet, w')
         ∧ ∀ k, k ∈ l ↔ k ∈ keySet)
  ∧ (∀ e w',
       TestQueryCache.getMatchingKeysForTargetId t w = (Err e, w')
       ↔ runTransaction "getMatchingKeysForTargetId" false
           (λ txn, cache_getMatchingKeysForTargetId txn t) w = (Err e, w')).
Proof.
  unfold TestQueryCache.getMatchingKeysForTargetId.
  destruct (runTransaction "getMatchingKeysForTargetId" false
              (λ txn, cache_getMatchingKeysForTargetId txn t) w)
    as [[keySet|e0] w0].
  - split.
    + intros l w' [= <- <-]. split; [apply NoDup_elements|].
      exists keySet. split; [reflexivity|]. intros k. apply elem_of_elements.
    + intros e w'. split; discriminate.
  - split.
    + intros l w'. discriminate.
    + intros e w'. split; intros [= <- <-]; reflexivity.
Qed.

End KeyArrays.

Section MatchedKeys.
Context `{!Collaborators} `{!CacheCollaborators}.

Lemma matchedKeys_insert (st : SpecCache.Store) (t t' : TargetId)
    (ks : gset DocumentKey) :
  SpecCache.matchedKeys
    (SpecCache.with_matched st (<[t := ks]> (SpecCache.matched st))) t'
  = if decide (t = t') then ks else SpecCache.matchedKeys st t'.
Proof.
  unfold SpecCache.matchedKeys. simpl. rewrite lookup_insert.
  destruct (decide (t = t')); reflexivity.
Qed.

(** X12: with the cache of the specification behind the wrapper, the keys
    added for a target come back: after [addMatchingKeys(keys, t)] the array
    returned by [getMatchingKeysForTargetId(t)] has no repeats and holds
    exactly the keys of the array together with those matched before, and
    the keys of every other target are as they were. *)
Theorem addMatchingKeys_then_get
    (st : SpecCache.Store) (keys : list DocumentKey) (t : TargetId) :
  ∃ st' l,
    TestQueryCache.addMatchingKeys keys t st = (Ok tt, st')
    ∧ TestQueryCache.getMatchingKeysForTargetId t st' = (Ok l, st')
    ∧ NoDup l
    ∧ (∀ k, k ∈ l ↔ k ∈ keys ∨ k ∈ SpecCache.matchedKeys st t)
    ∧ (∀ t', t' ≠ t →
             TestQueryCache.getMatchingKeysForTargetId t' st'
             = (Ok (elements (SpecCache.matchedKeys st t')), st')).
Proof.
  eexists _, _. split; [reflexivity|]. split; [reflexivity|].
  split; [apply NoDup_elements|]. split.
  - intros k. rewrite elem_of_elements, matchedKeys_insert.
    destruct (decide (t = t)); [|congruence].
    rewrite keySetOf_list_to_set, elem_of_union, elem_of_list_to_set. tauto.
  - intros t' Hne.
    unfold TestQueryCache.getMatchingKeysForTargetId. simpl.
    unfold SpecCache.spec_runTransaction, SpecCache.getMatchingKeysForTargetId.
    rewrite matchedKeys_insert.
    destruct (decide (t = t')); [congruence|reflexivity].
Qed.

(** X13: with the cache of the specification behind the wrapper, adding
    keys is idempotent: after [addMatchingKeys(keys, t)], a further
    [addMatchingKeys(keys', t)] with an array whose keys were all in [keys]
    leaves the store exactly as it was. *)
Theorem addMatchingKeys_idempotent
    (st : SpecCache.Store) (keys keys' : list DocumentKey) (t : TargetId) :
  (∀ k, k ∈ keys' → k ∈ keys) →
  TestQueryCache.addMatchingKeys keys' t
    (snd (TestQueryCache.addMatchingKeys keys t st))
  = (Ok tt, snd (TestQueryCache.addMatchingKeys keys t st)).
Proof.
  intros Hsub.
  unfold TestQueryCache.addMatchingKeys. simpl.
  unfold SpecCache.spec_runTransaction, SpecCache.addMatchingKeys. simpl.
  f_equal. rewrite matchedKeys_insert.
  destruct (decide (t = t)); [|congruence].
  unfold SpecCache.with_matched. simpl. f_equal.
  rewrite insert_insert_eq. f_equal.
  rewrite !keySetOf_list_to_set. apply set_eq. intros k.
  rewrite !elem_of_union, !elem_of_list_to_set. specialize (Hsub k). tauto.
Qed.

(** X14: with the cache of the specification behind the wrapper,
    [removeMatchingKeys(keys, t)] leaves for [t] exactly the keys matched
    before that are not in the array, and
    [removeMatchingKeysForTargetId(t)] leaves none; neither touches the
    keys of another target. *)
Theorem removeMatchingKeys_then_get
    (st : SpecCache.Store) (keys : list DocumentKey) (t : TargetId) :
  (∃ st' l,
     TestQueryCache.removeMatchingKeys keys t st = (Ok tt, st')
     ∧ TestQueryCache.getMatchingKeysForTargetId t st' = (Ok l, st')
     ∧ (∀ k, k ∈ l ↔ k ∈ SpecCache.matchedKeys st t ∧ k ∉ keys)
     ∧ (∀ t', t' ≠ t →
              SpecCache.matchedKeys st' t' = SpecCache.matchedKeys st t'))
  ∧ (∃ st',
       TestQueryCache.removeMatchingKeysForTargetId t st = (Ok tt, st')
       ∧ TestQueryCache.getMatchingKeysForTargetId t st' = (Ok [], st')
       ∧ (∀ t', t' ≠ t →
                SpecCache.matchedKeys st' t' = SpecCache.matchedKeys st t')).
Proof.
  split.
  - eexists _, _. split; [reflexivity|]. split; [reflexivity|]. split.
    + intros k. rewrite elem_of_elements, matchedKeys_insert.
      destruct (decide (t = t)); [|congruence].
      rewrite keySetOf_list_to_set, elem_of_difference, elem_of_list_to_set.
      tauto.
    + intros t' Hne. rewrite matchedKeys_insert.
      destruct (decide (t = t')); [congruence|reflexivity].
  - eexists. split; [reflexivity|]. split.
    + unfold TestQueryCache.getMatchingKeysForTargetId. simpl.
      unfold SpecCache.spec_runTransaction,
        SpecCache.getMatchingKeysForTargetId, SpecCache.matchedKeys. simpl.
      rewrite lookup_delete_eq. simpl. rewrite elements_empty. reflexivity.
    + intros t' Hne. unfold SpecCache.matchedKeys. simpl.
      rewrite lookup_delete_ne by congruence. reflexivity.
Qed.

(** X15: with the cache and the transactions of the specification behind
    the wrapper, a second [addQueryData] for a target id that already has a
    record fails with the fatal assertion and, the transaction being
    atomic, leaves the store, and so the record stored first, as it was. *)
Theorem addQueryData_twice_fails
    (st : SpecCache.Store) (q q2 : QueryData) :
  ¬ SpecCache.tracked st (targetId q) →
  targetId q2 = targetId q →
  ∃ st1,
    TestQueryCache.addQueryData q st = (Ok tt, st1)
    ∧ fatal (fst (TestQueryCache.addQueryData q2 st1))
    ∧ snd (TestQueryCache.addQueryData q2 st1) = st1
    ∧ fst (TestQueryCache.getQueryData (query q) st1) = Ok (Some q).
Proof.
  intros Hfresh Hsame. apply isTracked_false in Hfresh.
  unfold TestQueryCache.addQueryData, TestQueryCache.getQueryData. simpl.
  unfold SpecCache.spec_runTransaction, SpecCache.addQueryData. rewrite Hfresh.
  eexists. split; [reflexivity|].
  assert (Ht : SpecCache.isTracked
            (SpecCache.with_matched
               (SpecCache.with_queries st
                  (<[Query_canonicalId (query q) := q]> (SpecCache.queries st)))
               (<[targetId q := ∅]> (SpecCache.matched st)))
            (targetId q2) = true).
  { apply isTracked_spec. exists (Query_canonicalId (query q)), q. simpl.
    split; [apply lookup_insert_eq | congruence]. }
  rewrite Ht. simpl. split; [exact I|]. split; [reflexivity|].
  unfold SpecCache.getQueryData. simpl. rewrite lookup_insert_eq. reflexivity.
Qed.

End MatchedKeys.

(** * The model on explicit inputs *)

Import Sample.
Local Open Scope string_scope.

Lemma sample_reflexive : ReflexiveEquality.
Proof.
  split; simpl.
  - apply String.eqb_refl.
  - apply N.eqb_refl.
  - induction o as [|[name f] o IH]; [reflexivity|]. simpl.
    rewrite String.eqb_refl, IH.
    destruct f; simpl; rewrite ?Bool.eqb_reflx, ?Z.eqb_refl, ?String.eqb_refl;
      reflexivity.
Qed.

Lemma number_of_comparison_le (c : comparison) :
  number_of_comparison c <= 0 ↔ c ≠ Gt.
Proof.
  destruct c; simpl; split; intros H; try lia; try discriminate.
  contradiction.
Qed.

Lemma sample_key_comparator_total : TotalComparator DocumentKey_comparator.
Proof.
  split; simpl.
  - intros a b. rewrite <- OrderedTypeEx.String_as_OT.cmp_eq.
    unfold OrderedTypeEx.String_as_OT.cmp.
    destruct (String.compare a b); simpl; split; intros H;
      try reflexivity; try discriminate.
  - intros a b. rewrite (String.compare_antisym a b).
    destruct (String.compare b a); reflexivity.
  - intros a b c Hab Hbc.
    rewrite number_of_comparison_le in Hab, Hbc |- *.
    destruct (String.compare a b) eqn:Eab; [| |contradiction].
    + apply OrderedTypeEx.String_as_OT.cmp_eq in Eab. subst b. exact Hbc.
    + destruct (String.compare b c) eqn:Ebc; [| |contradiction].
      * apply OrderedTypeEx.String_as_OT.cmp_eq in Ebc. subst c.
        rewrite Eab. discriminate.
      * apply OrderedTypeEx.String_as_OT.cmp_lt in Eab, Ebc.
        pose proof (OrderedTypeEx.String_as_OT.lt_trans _ _ _ Eab Ebc) as Hac.
        apply OrderedTypeEx.String_as_OT.cmp_lt in Hac.
        unfold OrderedTypeEx.String_as_OT.cmp in Hac. rewrite Hac. discriminate.
Qed.

(** The two version examples of the specification: commit version 5, remote
    version 3, no local mutations, against base versions 4 and 6. *)
Example hasPendingWrites_commit_after_base :
  Document.hasPendingWrites (doc "rooms/eros" 3 5 [] false) (version 4) = true.
Proof. reflexivity. Qed.

Example hasPendingWrites_commit_before_base :
  Document.hasPendingWrites (doc "rooms/eros" 3 5 [] false) (version 6) = false.
Proof. reflexivity. Qed.

Lemma hasPendingWrites_decided_witness :
  hasLocalMutations (doc "rooms/eros" 3 5 [] false) = false
  ∧ SnapshotVersion_isEqual (version 4) SnapshotVersion_MIN = false
  ∧ SnapshotVersion_compareTo
      (commitVersion (doc "rooms/eros" 3 5 [] false)) (version 4) >= 0
  ∧ Document.hasPendingWrites (doc "rooms/eros" 3 5 [] false) (version 4)
    = true.
Proof.
  split; [reflexivity|]. split; [reflexivity|]. split; [vm_compute; discriminate|].
  rewrite (proj1 (proj2 (hasPendingWrites_decided
                           (doc "rooms/eros" 3 5 [] false) (version 4))));
    [reflexivity | reflexivity | reflexivity | vm_compute; discriminate].
Defined.

Lemma NoDocument_isEqual_accepts_Document_witness :
  NoDocument.isEqual (nodoc "rooms/eros" 3 3)
    (JsDocument (doc "rooms/eros" 3 3 [("name", StringValue "Eros")] false))
  = Ok (JsBool true)
  ∧ Document.isEqual (doc "rooms/eros" 3 3 [("name", StringValue "Eros")] false)
      (JsNoDocument (nodoc "rooms/eros" 3 3))
    = Ok false.
Proof.
  apply (NoDocument_isEqual_accepts_Document (nodoc "rooms/eros" 3 3)
           (doc "rooms/eros" 3 3 [("name", StringValue "Eros")] false));
    [exact sample_reflexive | reflexivity | reflexivity | reflexivity].
Defined.

Lemma compareByField_fails_iff_field_missing_witness :
  Document.field (doc "rooms/eros" 1 1 [("age", IntegerValue 7)] false) "age"
  = Some (IntegerValue 7)
  ∧ Document.field (doc "rooms/other" 1 1 [("age", IntegerValue 9)] false) "age"
    = Some (IntegerValue 9)
  ∧ Document.compareByField "age"
      (doc "rooms/eros" 1 1 [("age", IntegerValue 7)] false)
      (doc "rooms/other" 1 1 [("age", IntegerValue 9)] false)
    = Ok (-1).
Proof.
  split; [reflexivity|]. split; [reflexivity|].
  exact (proj1 (proj2 (proj2 (compareByField_fails_iff_field_missing "age"
           (doc "rooms/eros" 1 1 [("age", IntegerValue 7)] false)
           (doc "rooms/other" 1 1 [("age", IntegerValue 9)] false))))
         (IntegerValue 7) (IntegerValue 9) eq_refl eq_refl).
Defined.

(** A missing field makes [compareByField] fail rather than return. *)
Example compareByField_missing_field :
  Document.compareByField "size"
    (doc "rooms/eros" 1 1 [("age", IntegerValue 7)] false)
    (doc "rooms/other" 1 1 [("size", IntegerValue 9)] false)
  = Err (AssertionFailure
           "Trying to compare documents on fields that don't exist").
Proof. reflexivity. Qed.

(** C4, as the specification words it, fails: [field] called on a
    [NoDocument] does not return the empty optional. *)
Lemma NoDocument_field_not_absent :
  ¬ (∀ (n : NoDocument) (path : FieldPath),
       Dispatch.call_field (IsNoDocument n) path = Ok None).
Proof.
  intros Hclaim. specialize (Hclaim (nodoc "rooms/eros" 3 3) "name").
  discriminate Hclaim.
Qed.

Lemma compareByKey_orders_by_key_witness :
  MaybeDocument.compareByKey
    (IsDocument (doc "rooms/a" 1 1 [] false)) (IsNoDocument (nodoc "rooms/b" 2 2))
  = -1
  ∧ (MaybeDocument.compareByKey
       (IsDocument (doc "rooms/a" 1 1 [] false))
       (IsNoDocument (nodoc "rooms/a" 2 2)) = 0
     ↔ key (maybe_fields (IsDocument (doc "rooms/a" 1 1 [] false)))
       = key (maybe_fields (IsNoDocument (nodoc "rooms/a" 2 2)))).
Proof.
  destruct (compareByKey_orders_by_key sample_key_comparator_total)
    as (Hdef & _ & Hzero & _).
  split; [rewrite Hdef; reflexivity | apply Hzero].
Defined.

Lemma Document_isEqual_rejects_non_documents_witness :
  (∀ d' : Document, JsNoDocument (nodoc "rooms/eros" 3 3) ≠ JsDocument d')
  ∧ Document.isEqual (doc "rooms/eros" 3 3 [] false)
      (JsNoDocument (nodoc "rooms/eros" 3 3)) = Ok false.
Proof.
  assert (Hno : ∀ d' : Document,
             JsNoDocument (nodoc "rooms/eros" 3 3) ≠ JsDocument d')
    by (intros d'; discriminate).
  split; [exact Hno|].
  exact (proj1 (proj2 (proj2 (Document_isEqual_rejects_non_documents
           (doc "rooms/eros" 3 3 [] false)))) _ Hno).
Defined.

Lemma sample_value_defined (f : FieldValue) : FieldValue_value f ≠ undefined.
Proof. destruct f; discriminate. Qed.

Lemma fieldValue_follows_field_witness :
  (∀ f : FieldValue, FieldValue_value f ≠ undefined)
  ∧ (Document.fieldValue (doc "rooms/eros" 1 1 [("age", IntegerValue 7)] false)
       "size" = undefined
     ↔ Document.field (doc "rooms/eros" 1 1 [("age", IntegerValue 7)] false)
         "size" = None)
  ∧ Document.fieldValue (doc "rooms/eros" 1 1 [("age", IntegerValue 7)] false)
      "age" = js_number 7.
Proof.
  split; [exact sample_value_defined|]. split.
  - exact (proj2 (proj2 (fieldValue_follows_field
             (doc "rooms/eros" 1 1 [("age", IntegerValue 7)] false) "size"))
           sample_value_defined).
  - exact (proj1 (proj2 (fieldValue_follows_field
             (doc "rooms/eros" 1 1 [("age", IntegerValue 7)] false) "age"))
           (IntegerValue 7) eq_refl).
Defined.

Lemma oneTarget_tracked : SpecCache.trackedTargets oneTarget = [1].
Proof. vm_compute. reflexivity. Qed.

Lemma oneTarget_only_target (t' : TargetId) :
  SpecCache.tracked oneTarget t' →
  "rooms/a" ∈ SpecCache.matchedKeys oneTarget t' → t' = 1.
Proof.
  intros Ht' _. apply tracked_in_list in Ht'.
  rewrite oneTarget_tracked in Ht'. destruct Ht' as [E|[]].
  symmetry. exact E.
Qed.

Lemma containsKey_iff_matched_by_tracked_target_witness :
  (∀ t', SpecCache.tracked oneTarget t' →
         "rooms/a" ∈ SpecCache.matchedKeys oneTarget t' → t' = 1)
  ∧ fst (TestQueryCache.containsKey "rooms/a" oneTarget) = Ok true
  ∧ ∃ st',
      TestQueryCache.removeMatchingKeysForTargetId 1 oneTarget = (Ok tt, st')
      ∧ TestQueryCache.containsKey "rooms/a" st' = (Ok false, st').
Proof.
  split; [exact oneTarget_only_target|]. split; [vm_compute; reflexivity|].
  exact (proj2 (containsKey_iff_matched_by_tracked_target oneTarget "rooms/a")
           1 oneTarget_only_target).
Defined.

(** Allocation across the removal of a target: the ids keep growing. *)
Example allocate_across_removal :
  fst (Session.run
         [Session.Allocate;
          Session.AddQueryData (queryData "rooms" 1);
          Session.RemoveQueryData (queryData "rooms" 1);
          Session.RemoveMatchingKeysForTargetId 1;
          Session.Allocate;
          Session.Allocate]
         emptyStore)
  = [1; 2; 3].
Proof. vm_compute. reflexivity. Qed.

Lemma emptyStore_untracked (t : TargetId) : ¬ SpecCache.tracked emptyStore t.
Proof. intros Ht. apply tracked_in_list in Ht. exact Ht. Qed.

Lemma queryData_round_trip_witness :
  ¬ SpecCache.tracked emptyStore (targetId (queryData "rooms" 1))
  ∧ ∃ st1,
      TestQueryCache.addQueryData (queryData "rooms" 1) emptyStore = (Ok tt, st1)
      ∧ TestQueryCache.getQueryData "rooms" st1
        = (Ok (Some (queryData "rooms" 1)), st1).
Proof.
  split; [apply emptyStore_untracked|].
  destruct (proj1 (queryData_round_trip emptyStore (queryData "rooms" 1))
              (emptyStore_untracked _))
    as (st1 & Hadd & Hget & _).
  exists st1. split; [exact Hadd | exact Hget].
Defined.

(** ** The further properties on explicit inputs *)

Lemma Field_eqb_eq (a b : Field) : Field_eqb a b = true ↔ a = b.
Proof.
  destruct a, b; simpl; split; intros E; try discriminate; try reflexivity.
  - apply Bool.eqb_prop in E. congruence.
  - injection E as ->. apply Bool.eqb_reflx.
  - apply Z.eqb_eq in E. congruence.
  - injection E as ->. apply Z.eqb_refl.
  - apply String.eqb_eq in E. congruence.
  - injection E as ->. apply String.eqb_refl.
Qed.

Lemma Object_isEqual_eq (a b : list (string * Field)) :
  Object_isEqual a b = true ↔ a = b.
Proof.
  revert b. induction a as [|[n1 f1] a IH]; intros [|[n2 f2] b]; simpl;
    split; intros E; try discriminate; try reflexivity.
  - apply andb_true_iff in E as [E Et]. apply andb_true_iff in E as [En Ef].
    apply String.eqb_eq in En. apply Field_eqb_eq in Ef. apply IH in Et.
    congruence.
  - injection E as -> -> ->.
    rewrite String.eqb_refl, (proj2 (Field_eqb_eq f2 f2) eq_refl),
      (proj2 (IH b) eq_refl). reflexivity.
Qed.

Lemma sample_deciding : DecidingEquality.
Proof.
  split; simpl.
  - apply String.eqb_eq.
  - apply N.eqb_eq.
  - apply Object_isEqual_eq.
Qed.

Lemma sample_symmetric : SymmetricEquality.
Proof.
  split; simpl.
  - apply String.eqb_sym.
  - apply N.eqb_sym.
  - intros a b.
    destruct (Object_isEqual a b) eqn:E1, (Object_isEqual b a) eqn:E2;
      try reflexivity.
    + apply Object_isEqual_eq in E1. subst b.
      rewrite (proj2 (Object_isEqual_eq a a) eq_refl) in E2. discriminate.
    + apply Object_isEqual_eq in E2. subst b.
      rewrite (proj2 (Object_isEqual_eq a a) eq_refl) in E1. discriminate.
Qed.

Lemma sample_version_comparator_total :
  TotalComparator SnapshotVersion_compareTo.
Proof.
  split; simpl.
  - intros a b. rewrite <- N.compare_eq_iff.
    destruct (a ?= b)%N; simpl; split; intros H;
      try reflexivity; try discriminate.
  - intros a b. rewrite (N.compare_antisym a b).
    destruct (a ?= b)%N; reflexivity.
  - intros a b c. rewrite !number_of_comparison_le.
    change ((a <= b)%N → (b <= c)%N → (a <= c)%N). lia.
Qed.

Lemma Field_compareTo_swap (a b : Field) :
  Z.sgn (Field_compareTo b a) = - Z.sgn (Field_compareTo a b).
Proof.
  destruct a as [|x|x|x], b as [|y|y|y]; simpl; try reflexivity.
  - destruct x, y; reflexivity.
  - rewrite (Z.compare_antisym x y). destruct (Z.compare x y); reflexivity.
  - rewrite (String.compare_antisym y x).
    destruct (String.compare x y); reflexivity.
Qed.

Lemma Field_compareTo_trans (a b c : Field) :
  Field_compareTo a b <= 0 → Field_compareTo b c <= 0 →
  Field_compareTo a c <= 0.
Proof.
  destruct a as [|x|x|x], b as [|y|y|y], c as [|z|z|z]; simpl;
    try lia.
  - destruct x, y, z; simpl; lia.
  - rewrite !number_of_comparison_le.
    change ((x <= y)%Z → (y <= z)%Z → (x <= z)%Z). lia.
  - apply (cmp_trans _ sample_key_comparator_total).
Qed.

Lemma Document_isEqual_decides_equality_witness :
  Document.isEqual (doc "rooms/eros" 3 5 [("age", IntegerValue 7)] false)
    (JsDocument (doc "rooms/eros" 3 5 [("age", IntegerValue 7)] false))
  = Ok true
  ∧ Document.isEqual (doc "rooms/eros" 3 5 [("age", IntegerValue 7)] false)
      (JsDocument (doc "rooms/eros" 3 5 [("age", IntegerValue 8)] false))
    ≠ Ok true.
Proof.
  split.
  - apply (proj2 (Document_isEqual_decides_equality _ _ sample_deciding)).
    reflexivity.
  - intros E.
    apply (proj1 (Document_isEqual_decides_equality _ _ sample_deciding)) in E.
    discriminate E.
Defined.

Lemma isEqual_symmetric_within_class_witness :
  Document.isEqual (doc "rooms/a" 1 1 [] false)
    (JsDocument (doc "rooms/b" 1 1 [] true))
  = Document.isEqual (doc "rooms/b" 1 1 [] true)
      (JsDocument (doc "rooms/a" 1 1 [] false))
  ∧ NoDocument.isEqual (nodoc "rooms/a" 1 2) (JsNoDocument (nodoc "rooms/a" 1 3))
    = NoDocument.isEqual (nodoc "rooms/a" 1 3) (JsNoDocument (nodoc "rooms/a" 1 2)).
Proof.
  destruct (isEqual_symmetric_within_class sample_symmetric) as [Hd Hn].
  split; [apply Hd | apply Hn].
Defined.

Lemma NoDocument_isEqual_decides_equality_witness :
  NoDocument.isEqual (nodoc "rooms/a" 1 2) (JsNoDocument (nodoc "rooms/a" 1 2))
  = Ok (JsBool true).
Proof.
  apply (proj2 (NoDocument_isEqual_decides_equality _ _ sample_deciding)).
  reflexivity.
Defined.


Lemma hasPendingWrites_has_a_cause_witness :
  Document.hasPendingWrites (doc "rooms/eros" 3 5 [] false) (version 4) = true
  ∧ (hasLocalMutations (doc "rooms/eros" 3 5 [] false) = true
     ∨ SnapshotVersion_compareTo
         (commitVersion (doc "rooms/eros" 3 5 [] false))
         (remoteVersion (doc "rooms/eros" 3 5 [] false)) > 0).
Proof.
  split; [reflexivity|].
  apply (hasPendingWrites_has_a_cause _ (version 4)). reflexivity.
Defined.

Lemma hasPendingWrites_earlier_base_witness :
  SnapshotVersion_isEqual (version 4) SnapshotVersion_MIN = false
  ∧ SnapshotVersion_compareTo (version 4) (version 5) <= 0
  ∧ Document.hasPendingWrites (doc "rooms/eros" 3 5 [] false) (version 5) = true
  ∧ Document.hasPendingWrites (doc "rooms/eros" 3 5 [] false) (version 4) = true.
Proof.
  split; [reflexivity|]. split; [vm_compute; discriminate|].
  split; [reflexivity|].
  apply (hasPendingWrites_earlier_base _ (version 4) (version 5)
           sample_version_comparator_total);
    [reflexivity | vm_compute; discriminate | reflexivity].
Defined.

Lemma compareByField_consistent_witness :
  Document.compareByField "age"
    (doc "rooms/eros" 1 1 [("age", IntegerValue 7)] false)
    (doc "rooms/other" 1 1 [("age", IntegerValue 9)] false) = Ok (-1)
  ∧ ∃ z', Document.compareByField "age"
            (doc "rooms/other" 1 1 [("age", IntegerValue 9)] false)
            (doc "rooms/eros" 1 1 [("age", IntegerValue 7)] false) = Ok z'
          ∧ Z.sgn z' = - Z.sgn (-1).
Proof.
  split; [reflexivity|].
  apply (proj1 (proj2 (@compareByField_consistent collaborators "age"
                         Field_compareTo_swap Field_compareTo_trans))).
  reflexivity.
Defined.

Lemma toString_omits_commitVersion_witness :
  SnapshotVersion_isEqual
    (commitVersion (doc "rooms/eros" 3 5 [] false))
    (commitVersion (doc "rooms/eros" 3 6 [] false)) = false
  ∧ Document.toString (doc "rooms/eros" 3 5 [] false)
    = Document.toString (doc "rooms/eros" 3 6 [] false)
  ∧ Document.isEqual (doc "rooms/eros" 3 5 [] false)
      (JsDocument (doc "rooms/eros" 3 6 [] false)) = Ok false.
Proof.
  split; [reflexivity|].
  apply (proj1 toString_omits_commitVersion
           (doc "rooms/eros" 3 5 [] false) (doc "rooms/eros" 3 6 [] false));
    reflexivity.
Defined.

Example Document_toString_sample :
  Document.toString (doc "rooms/eros" 3 5 [("age", IntegerValue 7)] true)
  = "Document(rooms/eros, 3, age, {hasLocalMutations: true})".
Proof. vm_compute. reflexivity. Qed.

Lemma same_members_sample (k : string) :
  k ∈ ["rooms/a"; "rooms/b"; "rooms/a"] ↔ k ∈ ["rooms/b"; "rooms/a"].
Proof. rewrite !elem_of_cons, !elem_of_nil. tauto. Qed.

Lemma matchingKeys_array_as_set_witness :
  (∀ k : string,
     k ∈ ["rooms/a"; "rooms/b"; "rooms/a"] ↔ k ∈ ["rooms/b"; "rooms/a"])
  ∧ TestQueryCache.addMatchingKeys (W:=SpecCache.Store)
      ["rooms/a"; "rooms/b"; "rooms/a"] 1
    = TestQueryCache.addMatchingKeys ["rooms/b"; "rooms/a"] 1.
Proof.
  split; [exact same_members_sample|].
  exact (proj1 (proj2 (matchingKeys_array_as_set (W:=SpecCache.Store)
                         ["rooms/a"; "rooms/b"; "rooms/a"])
                  ["rooms/b"; "rooms/a"] 1 same_members_sample)).
Defined.

Lemma oneTarget_keys :
  TestQueryCache.getMatchingKeysForTargetId 1 oneTarget
  = (Ok (elements (SpecCache.matchedKeys oneTarget 1)), oneTarget).
Proof. reflexivity. Qed.

Lemma getMatchingKeysForTargetId_array_witness :
  TestQueryCache.getMatchingKeysForTargetId 1 oneTarget
  = (Ok (elements (SpecCache.matchedKeys oneTarget 1)), oneTarget)
  ∧ NoDup (elements (SpecCache.matchedKeys oneTarget 1)).
Proof.
  split; [exact oneTarget_keys|].
  exact (proj1 (proj1 (getMatchingKeysForTargetId_array 1 oneTarget)
                  _ _ oneTarget_keys)).
Defined.

Lemma addMatchingKeys_idempotent_witness :
  (∀ k : string, k ∈ ["rooms/a"] → k ∈ ["rooms/a"; "rooms/b"])
  ∧ TestQueryCache.addMatchingKeys ["rooms/a"] 1
      (snd (TestQueryCache.addMatchingKeys ["rooms/a"; "rooms/b"] 1 emptyStore))
    = (Ok tt,
       snd (TestQueryCache.addMatchingKeys ["rooms/a"; "rooms/b"] 1 emptyStore)).
Proof.
  assert (Hsub : ∀ k : string, k ∈ ["rooms/a"] → k ∈ ["rooms/a"; "rooms/b"]).
  { intros k. rewrite !elem_of_cons, !elem_of_nil. tauto. }
  split; [exact Hsub|].
  exact (addMatchingKeys_idempotent emptyStore
           ["rooms/a"; "rooms/b"] ["rooms/a"] 1 Hsub).
Defined.

Lemma addQueryData_twice_fails_witness :
  ¬ SpecCache.tracked emptyStore (targetId (queryData "rooms" 1))
  ∧ targetId (queryData "halls" 1) = targetId (queryData "rooms" 1)
  ∧ ∃ st1,
      TestQueryCache.addQueryData (queryData "rooms" 1) emptyStore = (Ok tt, st1)
      ∧ fatal (fst (TestQueryCache.addQueryData (queryData "halls" 1) st1))
      ∧ snd (TestQueryCache.addQueryData (queryData "halls" 1) st1) = st1.
Proof.
  split; [apply emptyStore_untracked|]. split; [reflexivity|].
  destruct (addQueryData_twice_fails emptyStore
              (queryData "rooms" 1) (queryData "halls" 1)
              (emptyStore_untracked _) eq_refl)
    as (st1 & Hadd & Hfail & Hsame & _).
  exists st1. split; [exact Hadd|]. split; [exact Hfail | exact Hsame].
Defined.

Lemma toString_tells_variants_apart_witness :
  Document.toString (doc "rooms/eros" 3 3 [] false)
  ≠ NoDocument.toString (nodoc "rooms/eros" 3 3).
Proof.
  exact (toString_tells_variants_apart
           (doc "rooms/eros" 3 3 [] false) (nodoc "rooms/eros" 3 3)).
Defined.
